(** * GGN console downloader

    The request pipeline of the API client ([src/lib/ggn_client.py]) and the
    selection engine and download loop of the console tool
    ([src/downloader.py]), as Rocq definitions, followed by the properties
    proved about them. *)

From Stdlib Require Import ZArith List String Ascii Bool Lia DecimalString.
Import ListNotations.

Set Warnings "-register-all".

Local Open Scope Z_scope.
Local Open Scope list_scope.

(** ** Python values

    The values that flow through the client: request parameters, the [dry]
    flag, parsed JSON bodies. *)

Inductive pyval : Type :=
| VNone
| VBool (b : bool)
| VInt (z : Z)
| VStr (s : string)
| VList (l : list pyval)
| VDict (d : list (string * pyval)).

(** Python truthiness, as tested by [if dry:] and [if not action:]. *)
Definition truthy (v : pyval) : bool :=
  match v with
  | VNone => false
  | VBool b => b
  | VInt z => negb (z =? 0)
  | VStr s => negb (s =? "")%string
  | VList l => match l with [] => false | _ => true end
  | VDict d => match d with [] => false | _ => true end
  end.

(** [v is None] *)
Definition is_None (v : pyval) : bool :=
  match v with VNone => true | _ => false end.

(** [v is False] *)
Definition is_False (v : pyval) : bool :=
  match v with VBool false => true | _ => false end.

(** [str(z)] for an integer *)
Definition str_of_int (z : Z) : string := NilZero.string_of_int (Z.to_int z).

(** An optional string argument ([None] or a [str]) tested by [not x]. *)
Definition str_truthy (o : option string) : bool :=
  match o with
  | None => false
  | Some s => negb (s =? "")%string
  end.

(** Lookup in a dict with string keys. *)
Fixpoint str_lookup {V : Type} (k : string) (d : list (string * V)) : option V :=
  match d with
  | [] => None
  | (k', v) :: r => if (k =? k')%string then Some v else str_lookup k r
  end.

(** Assignment in a dict with string keys: in place when the key is present,
    appended otherwise. *)
Fixpoint str_assign {V : Type} (k : string) (v : V) (d : list (string * V))
  : list (string * V) :=
  match d with
  | [] => [(k, v)]
  | (k', v') :: r =>
      if (k =? k')%string then (k, v) :: r else (k', v') :: str_assign k v r
  end.

(** ** Insertion-ordered dictionaries with integer keys

    [torrent_data] in [downloader.py] is a Python [dict] keyed by group
    identifier.  Iteration follows insertion order, assignment to a key that
    is present keeps its position, and [pop] removes the key. *)

Module PyDict.

Definition t (V : Type) : Type := list (Z * V).

Definition empty {V : Type} : t V := [].

Fixpoint get {V : Type} (k : Z) (d : t V) : option V :=
  match d with
  | [] => None
  | (k', v) :: r => if k =? k' then Some v else get k r
  end.

(** [k in d] *)
Definition contains {V : Type} (k : Z) (d : t V) : bool :=
  match get k d with Some _ => true | None => false end.

(** [d[k] = v] *)
Fixpoint set {V : Type} (k : Z) (v : V) (d : t V) : t V :=
  match d with
  | [] => [(k, v)]
  | (k', v') :: r => if k =? k' then (k, v) :: r else (k', v') :: set k v r
  end.

(** [d.pop(k, None)], the popped value being dropped *)
Definition pop {V : Type} (k : Z) (d : t V) : t V :=
  filter (fun kv => negb (k =? fst kv)) d.

(** [d.items()] *)
Definition items {V : Type} (d : t V) : list (Z * V) := d.

(** [len(d)] *)
Definition len {V : Type} (d : t V) : Z := Z.of_nat (List.length d).

End PyDict.

(** ** Filename derivation ([downloader.py], lines 83-88) *)

Module Filename.

Local Open Scope char_scope.

(** The double quote character, code 34. *)
Definition double_quote : ascii := ascii_of_nat 34.

(** [str.maketrans({...})]: the table, in the order of the dict literal.
    Titles are modelled as strings of bytes; all eleven keys are ASCII, and
    an ASCII byte never occurs inside a multi-byte UTF-8 sequence, so the
    translation by bytes and the translation by code points agree. *)
Definition file_translator : list (ascii * string) :=
  [ ("[", "_"%string); ("\", "_"%string); ("/", "-"%string);
    (double_quote, "_"%string); ("*", "_"%string); ("?", "_"%string);
    ("<", "_"%string); (">", "_"%string); ("|", "_"%string);
    ("]", "_"%string); (":", "_"%string) ].

Fixpoint table_lookup (c : ascii) (table : list (ascii * string))
  : option string :=
  match table with
  | [] => None
  | (k, v) :: r => if Ascii.eqb c k then Some v else table_lookup c r
  end.

(** [s.translate(table)] *)
Fixpoint translate (s : string) (table : list (ascii * string)) : string :=
  match s with
  | EmptyString => EmptyString
  | String c r =>
      match table_lookup c table with
      | Some v => (v ++ translate r table)%string
      | None => String c (translate r table)
      end
  end.

(** [torrent['release_title'].translate(file_translator)] *)
Definition filename_of (release_title : string) : string :=
  translate release_title file_translator.

(** The eleven characters named by the rule. *)
Definition reserved : list ascii :=
  [ "["; "\"; "/"; double_quote; "*"; "?"; "<"; ">"; "|"; "]"; ":" ].

Definition is_reserved (c : ascii) : bool :=
  existsb (Ascii.eqb c) reserved.

Fixpoint map_chars (f : ascii -> ascii) (s : string) : string :=
  match s with
  | EmptyString => EmptyString
  | String c r => String (f c) (map_chars f r)
  end.

(** The rule as the specification words it: every reserved character
    becomes an underscore, every other character stays. *)
Definition sanitize_as_specified (s : string) : string :=
  map_chars (fun c => if is_reserved c then "_" else c) s.

(** What the table does to one character: the slash becomes a hyphen, the
    ten other reserved characters an underscore. *)
Definition translate_char (c : ascii) : ascii :=
  if Ascii.eqb c "/" then "-"
  else if is_reserved c then "_"
  else c.

End Filename.

(** ** The API client ([lib/ggn_client.py]) *)

Module Client.

Local Open Scope string_scope.

(** *** Data *)

(** [Headers]: the token and the caller's extra headers. *)
Record Headers : Type := mkHeaders {
  token : string;
  extra_headers : list (string * string)
}.

(** [Headers.to_dict]: [{**default_headers, **self.extra_headers}]. *)
Definition to_dict (h : Headers) : list (string * string) :=
  fold_left (fun acc kv => str_assign (fst kv) (snd kv) acc)
    (extra_headers h)
    [ ("Accept", "application/json");
      ("Content-Type", "application/json");
      ("X-API-Key", token h) ].

(** The arguments of [requests.get]. *)
Record request : Type := mkRequest {
  req_url : string;
  req_headers : list (string * string);
  req_timeout : Z
}.

(** What the client reads of a [requests.Response].  [json_body] is the
    result of [response.json()], [None] when the body does not parse. *)
Record response : Type := mkResponse {
  status_code : Z;
  text : string;
  content : string;
  content_type : option string;
  json_body : option pyval
}.

(** [response.ok]: false exactly for the status codes on which
    [raise_for_status] raises, 400 to 599. *)
Definition response_ok (r : response) : bool :=
  negb ((400 <=? status_code r)%Z && (status_code r <? 600)%Z).

(** What [_do_request] hands back: the endpoint (dry run), the raw response
    object, or a value taken from the parsed body. *)
Inductive result : Type :=
| Endpoint (url : string)
| Raw (r : response)
| Value (v : pyval).

(** The two messages of [GGNClientException], by their parts. *)
Inductive failure : Type :=
| HttpFailure (status : Z) (body_text : string)
| ApiFailure (json : pyval).

Inductive exc : Type :=
| GGNClientException (action : option string) (why : failure)
| PyException (msg : string)
| RequestException (why : string)
| JSONDecodeError
| KeyError (key : string)
| TypeError
| AttributeError
| OSError (path : string).

Definition is_GGNClientException (e : exc) : bool :=
  match e with GGNClientException _ _ => true | _ => false end.

Inductive fs_event : Type :=
| Opened (path : string)
| Written (path : string) (bytes : string).

Inductive output : Type :=
| PrintResult (r : result)
| PrintStr (s : string)
| PrintDownloadError (torrent_id : pyval) (e : exc).

(** The mutable state a run touches: the client's [_user] cache, the requests
    sent so far, the file system operations and the lines printed.
    [attempted] is a ghost field: the torrent ids the download loop has
    called [download_torrent] with. *)
Record world : Type := mkWorld {
  _user : result;
  sent : list request;
  fs : list fs_event;
  stdout : list output;
  attempted : list pyval
}.

(** A fresh client in a fresh process: [self._user = None]. *)
Definition initial_world : world :=
  {| _user := Value VNone; sent := []; fs := []; stdout := []; attempted := [] |}.

(** *** Computations that may raise *)

Definition M (A : Type) : Type := world -> (exc + A) * world.

Definition ret {A : Type} (a : A) : M A := fun w => (inr a, w).

Definition raise {A : Type} (e : exc) : M A := fun w => (inl e, w).

Definition bind {A B : Type} (m : M A) (k : A -> M B) : M B :=
  fun w =>
    match m w with
    | (inl e, w') => (inl e, w')
    | (inr a, w') => k a w'
    end.

Definition lift {A : Type} (x : exc + A) : M A := fun w => (x, w).

Notation "x <- m ;; k" := (bind m (fun x => k))
  (at level 61, m at next level, right associativity).
Notation "m ;;; k" := (bind m (fun _ => k))
  (at level 61, right associativity).

(** [try: body except GGNClientException as e: handler(e)] *)
Definition try_except_GGNClientException {A : Type}
  (body : M A) (handler : exc -> M A) : M A :=
  fun w =>
    match body w with
    | (inl e, w') =>
        if is_GGNClientException e then handler e w' else (inl e, w')
    | (inr a, w') => (inr a, w')
    end.

Definition get_user : M result := fun w => (inr (_user w), w).

Definition set_user (u : result) : M unit :=
  fun w => (inr tt, {| _user := u; sent := sent w; fs := fs w;
                       stdout := stdout w; attempted := attempted w |}).

Definition print (o : output) : M unit :=
  fun w => (inr tt, {| _user := _user w; sent := sent w; fs := fs w;
                       stdout := stdout w ++ [o]; attempted := attempted w |}).

Definition record_fs (ev : fs_event) : M unit :=
  fun w => (inr tt, {| _user := _user w; sent := sent w; fs := fs w ++ [ev];
                       stdout := stdout w; attempted := attempted w |}).

Definition record_attempt (torrent_id : pyval) : M unit :=
  fun w => (inr tt, {| _user := _user w; sent := sent w; fs := fs w;
                       stdout := stdout w;
                       attempted := attempted w ++ [torrent_id] |}).

(** [x[k]] for a string key: a dict gives the value or [KeyError]; nothing
    else the client meets can be indexed by a string. *)
Definition getitem (x : result) (k : string) : exc + pyval :=
  match x with
  | Value (VDict d) =>
      match str_lookup k d with
      | Some v => inr v
      | None => inl (KeyError k)
      end
  | _ => inl TypeError
  end.

(** [v != s] for a string literal [s] *)
Definition ne_str (v : pyval) (s : string) : bool :=
  match v with
  | VStr s' => negb (s' =? s)
  | _ => true
  end.

(** [response.json()] *)
Definition response_json (r : response) : exc + pyval :=
  match json_body r with
  | Some j => inr j
  | None => inl JSONDecodeError
  end.

(** [response.headers.get("Content-Type") != s] *)
Definition content_type_ne (r : response) (s : string) : bool :=
  match content_type r with
  | Some ct => negb (ct =? s)
  | None => true
  end.

(** [response.content], an attribute of response objects only *)
Definition content_of (x : result) : exc + string :=
  match x with
  | Raw r => inr (content r)
  | _ => inl AttributeError
  end.

(** The header [h] is present and equal to [s]. *)
Definition header_is (h : option string) (s : string) : bool :=
  match h with
  | Some x => x =? s
  | None => false
  end.

(** What the last lines of [_do_request] make of a response that is taken
    as JSON: the parse, the check of the status field, the response field. *)
Definition interpret_json (action : option string) (r : response)
  : exc + result :=
  match json_body r with
  | None => inl JSONDecodeError
  | Some json =>
      match getitem (Value json) "status" with
      | inl e => inl e
      | inr status =>
          if ne_str status "success" then
            inl (GGNClientException action (ApiFailure json))
          else
            match getitem (Value json) "response" with
            | inl e => inl e
            | inr v => inr (Value v)
            end
      end
  end.

(** The state after one more request has been sent. *)
Definition after_request (rq : request) (w : world) : world :=
  {| _user := _user w; sent := sent w ++ [rq]; fs := fs w;
     stdout := stdout w; attempted := attempted w |}.

(** The parameters of a dict whose value is not [None]. *)
Definition non_None (items : list (string * pyval)) : list (string * pyval) :=
  filter (fun kv => negb (is_None (snd kv))) items.

Section Environment.

(** The client's configuration, fixed at construction. *)
Variable _token : string.
Variable _base_url : string.

(** [repr] of a list or dict, which [str.format] falls back on. *)
Variable py_repr : pyval -> string.

(** The network: what [requests.get] gives for a request, after the requests
    sent before it: a response, or a transport failure (connection error,
    timeout after 10 seconds) described by a string. *)
Variable requests_get : list request -> request -> string + response.

(** The file system: whether [open(path, "wb")] succeeds, after the
    operations before it. *)
Variable open_wb : list fs_event -> string -> bool.

(** [f"{value}"] *)
Definition py_str (v : pyval) : string :=
  match v with
  | VNone => "None"
  | VBool true => "True"
  | VBool false => "False"
  | VInt z => str_of_int z
  | VStr s => s
  | VList _ | VDict _ => py_repr v
  end.

(** [__base_url] *)
Definition __base_url : string := _base_url ++ "?".

(** [_action_url].  [args] is [None] or a dict, in the order of its items. *)
Definition _action_url (action : option string)
  (args : option (list (string * pyval))) (override_url : option string)
  : string :=
  let base :=
    match override_url with
    | Some u => if negb (str_truthy override_url) then __base_url else u
    | None => __base_url
    end in
  match action with
  | None => base
  | Some a =>
      if negb (str_truthy action) then base
      else
        let extra_args :=
          match args with
          | Some ((_ :: _) as items) =>
              "&" ++ String.concat "&"
                (map (fun kv => fst kv ++ "=" ++ py_str (snd kv))
                   (filter (fun kv => negb (is_None (snd kv))) items))
          | _ => ""
          end in
        base ++ "&request=" ++ a ++ "&" ++ extra_args
  end.

(** [requests.get(url=..., headers=..., timeout=10)] *)
Definition http_get (rq : request) : M response :=
  fun w =>
    let w' := {| _user := _user w; sent := sent w ++ [rq]; fs := fs w;
                 stdout := stdout w; attempted := attempted w |} in
    match requests_get (sent w) rq with
    | inl why => (inl (RequestException why), w')
    | inr r => (inr r, w')
    end.

(** [_do_request].  The [@sleep_and_retry] and [@limits] decorators delay a
    call; they do not change what it computes, and time is not modelled. *)
Definition _do_request (action : option string)
  (args : option (list (string * pyval))) (override_url : option string)
  (dry : pyval) : M result :=
  let endpoint := _action_url action args override_url in
  if truthy dry then ret (Endpoint endpoint)
  else
    response <- http_get {| req_url := endpoint;
                            req_headers := to_dict (mkHeaders _token []);
                            req_timeout := 10%Z |} ;;
    if negb (response_ok response) then
      raise (GGNClientException action
               (HttpFailure (status_code response) (text response)))
    else if content_type_ne response "application/json" then
      ret (Raw response)
    else
      json <- lift (response_json response) ;;
      status <- lift (getitem (Value json) "status") ;;
      if ne_str status "success" then
        raise (GGNClientException action (ApiFailure json))
      else
        v <- lift (getitem (Value json) "response") ;;
        ret (Value v).

(** The request [_do_request] sends when it is not a dry run. *)
Definition request_for (action : option string)
  (args : option (list (string * pyval))) (override_url : option string)
  : request :=
  {| req_url := _action_url action args override_url;
     req_headers := to_dict (mkHeaders _token []);
     req_timeout := 10%Z |}.

(** [quick_user] *)
Definition quick_user : M result :=
  _do_request (Some "quick_user") None None (VBool false).

Definition is_None_result (x : result) : bool :=
  match x with Value VNone => true | _ => false end.

(** [open(write_location, "wb")] *)
Definition open_for_write (write_location : option string) : M string :=
  match write_location with
  | None => raise TypeError
  | Some path =>
      fun w =>
        if open_wb (fs w) path then (record_fs (Opened path) ;;; ret path) w
        else (inl (OSError path), w)
  end.

(** The user cache of [download_torrent]:
    [if self._user is None: self._user = self.quick_user()]. *)
Definition ensure_user : M unit :=
  cached <- get_user ;;
  if is_None_result cached
  then u <- quick_user ;; set_user u
  else ret tt.

(** The alternate endpoint of the download operation. *)
Definition download_url : string := "https://gazellegames.net/torrents.php?".

(** [download_torrent].  It returns [None] on every path that returns. *)
Definition download_torrent (torrent_id : pyval)
  (write_location : option string) (dry : pyval) : M pyval :=
  if (is_None dry || is_False dry)
     && match write_location with None => true | Some _ => false end
  then raise (PyException "write_location must be set if dry is False")
  else
    ensure_user ;;;
    user <- get_user ;;
    authkey <- lift (getitem user "authkey") ;;
    passkey <- lift (getitem user "passkey") ;;
    response <- _do_request (Some "download")
                  (Some [ ("id", torrent_id);
                          ("authkey", authkey);
                          ("torrent_pass", passkey) ])
                  (Some download_url) dry ;;
    if truthy dry then
      print (PrintResult response) ;;; ret VNone
    else
      path <- open_for_write write_location ;;
      bytes <- lift (content_of response) ;;
      record_fs (Written path bytes) ;;;
      print (PrintStr ("Torrent downloaded to " ++ path)) ;;;
      ret VNone.

End Environment.

End Client.

(** ** The console tool ([downloader.py]) *)

Module Downloader.

Import Client.

Local Open Scope string_scope.

(** *** Data *)

(** One item of a group's ["Torrents"] dict, by the keys the tool reads. *)
Record torrent_entry : Type := mkEntry {
  TorrentType : string;
  GameDOXType : string;
  IsSnatched : bool;
  GroupID : Z;
  Seeders : Z;
  ReleaseTitle : string
}.

(** One group of a result page; [Torrents] is [None] when the key is
    missing.  The items are in the order of the dict. *)
Record group : Type := mkGroup {
  Torrents : option (list (string * torrent_entry))
}.

(** The result of one [search_torrents] call, in the order of [items()]. *)
Definition page : Type := list (string * group).

(** A value of [torrent_data]. *)
Record candidate : Type := mkCandidate {
  torrent_id : string;
  release_title : string;
  seeders : Z
}.

Definition candidate_of (tid : string) (data : torrent_entry) : candidate :=
  {| torrent_id := tid;
     release_title := ReleaseTitle data;
     seeders := Seeders data |}.

(** *** Selection (lines 46-77) *)

(** The loop over [torrent["Torrents"].items()].  A [continue] is the
    recursive call on the rest with the map unchanged, the [break] returns
    without looking at the rest. *)
Fixpoint scan_entries (entries : list (string * torrent_entry))
  (torrent_data : PyDict.t candidate) : PyDict.t candidate :=
  match entries with
  | [] => torrent_data
  | (tid, data) :: rest =>
      if negb (TorrentType data =? "Torrent") then
        scan_entries rest torrent_data
      else if negb (GameDOXType data =? "") then
        scan_entries rest torrent_data
      else if IsSnatched data then
        if PyDict.contains (GroupID data) torrent_data
        then PyDict.pop (GroupID data) torrent_data
        else torrent_data
      else
        match PyDict.get (GroupID data) torrent_data with
        | Some current =>
            if (seeders current >? Seeders data)%Z then
              scan_entries rest torrent_data
            else
              scan_entries rest
                (PyDict.set (GroupID data) (candidate_of tid data) torrent_data)
        | None =>
            scan_entries rest
              (PyDict.set (GroupID data) (candidate_of tid data) torrent_data)
        end
  end.

(** The body of the loop over [result.items()]. *)
Definition process_group (torrent : group)
  (torrent_data : PyDict.t candidate) : PyDict.t candidate :=
  match Torrents torrent with
  | None => torrent_data
  | Some entries =>
      if (Z.of_nat (List.length entries) =? 0)%Z then torrent_data
      else scan_entries entries torrent_data
  end.

Definition process_page (result : page)
  (torrent_data : PyDict.t candidate) : PyDict.t candidate :=
  fold_left (fun td item => process_group (snd item) td) result torrent_data.

(** The selection loop as the specification words its step 4: a snatched
    entry removes the group's candidate and the scan goes on with the next
    entry. *)
Fixpoint scan_entries_as_specified (entries : list (string * torrent_entry))
  (torrent_data : PyDict.t candidate) : PyDict.t candidate :=
  match entries with
  | [] => torrent_data
  | (tid, data) :: rest =>
      if negb (TorrentType data =? "Torrent") then
        scan_entries_as_specified rest torrent_data
      else if negb (GameDOXType data =? "") then
        scan_entries_as_specified rest torrent_data
      else if IsSnatched data then
        scan_entries_as_specified rest
          (PyDict.pop (GroupID data) torrent_data)
      else
        match PyDict.get (GroupID data) torrent_data with
        | Some current =>
            if (Seeders data >? seeders current)%Z then
              scan_entries_as_specified rest
                (PyDict.set (GroupID data) (candidate_of tid data) torrent_data)
            else
              scan_entries_as_specified rest torrent_data
        | None =>
            scan_entries_as_specified rest
              (PyDict.set (GroupID data) (candidate_of tid data) torrent_data)
        end
  end.

(** An entry that passes the [TorrentType] and [GameDOXType] filters. *)
Definition passes_filters (data : torrent_entry) : bool :=
  (TorrentType data =? "Torrent") && (GameDOXType data =? "").

(** An entry that can become a candidate. *)
Definition eligible (data : torrent_entry) : bool :=
  passes_filters data && negb (IsSnatched data).

(** An entry at which the loop breaks. *)
Definition breaks (data : torrent_entry) : bool :=
  passes_filters data && IsSnatched data.

(** No entry of the list makes the loop break. *)
Definition no_break (entries : list (string * torrent_entry)) : bool :=
  forallb (fun e => negb (breaks (snd e))) entries.

(** Lines 68-77 on their own: what an eligible entry does to the map. *)
Definition offer (tid : string) (data : torrent_entry)
  (torrent_data : PyDict.t candidate) : PyDict.t candidate :=
  match PyDict.get (GroupID data) torrent_data with
  | Some current =>
      if (seeders current >? Seeders data)%Z then torrent_data
      else PyDict.set (GroupID data) (candidate_of tid data) torrent_data
  | None => PyDict.set (GroupID data) (candidate_of tid data) torrent_data
  end.

(** *** Pagination (lines 32-45 and 79) *)

Section Scan.

(** [client.search_torrents(artist_name=console, order_by="groupname",
    order_way="asc", page=page_number, empty_groups="filled")] as the tool
    sees it: the exception it raises, or the groups of that page. *)
Variable search_torrents : string -> Z -> exc + page.

(** The [while True] loop of one console.  [fuel] bounds the number of
    iterations; [None] means the bound was reached.  [log] lists the page
    requests issued, oldest first. *)
Fixpoint scan_console (fuel : nat) (console : string) (page_number : Z)
  (torrent_data : PyDict.t candidate) (log : list (string * Z))
  : option ((exc + PyDict.t candidate) * list (string * Z)) :=
  match fuel with
  | O => None
  | S fuel' =>
      let log' := (log ++ [(console, page_number)])%list in
      match search_torrents console page_number with
      | inl e => Some (inl e, log')
      | inr result =>
          if (Z.of_nat (List.length result) =? 0)%Z then
            Some (inr torrent_data, log')
          else
            scan_console fuel' console (page_number + 1)%Z
              (process_page result torrent_data) log'
      end
  end.

(** The loop over [console_list]. *)
Fixpoint scan_consoles (fuel : nat) (console_list : list string)
  (torrent_data : PyDict.t candidate) (log : list (string * Z))
  : option ((exc + PyDict.t candidate) * list (string * Z)) :=
  match console_list with
  | [] => Some (inr torrent_data, log)
  | console :: rest =>
      match scan_console fuel console 1%Z torrent_data log with
      | None => None
      | Some (inl e, log') => Some (inl e, log')
      | Some (inr torrent_data', log') =>
          scan_consoles fuel rest torrent_data' log'
      end
  end.

(** The map after the pages [start], [start + 1], ... ([n] of them) have
    been processed in this order. *)
Fixpoint after_pages (console : string) (start : Z) (n : nat)
  (torrent_data : PyDict.t candidate) : PyDict.t candidate :=
  match n with
  | O => torrent_data
  | S n' =>
      match search_torrents console start with
      | inr result =>
          after_pages console (start + 1)%Z n' (process_page result torrent_data)
      | inl _ => torrent_data
      end
  end.

(** The requests for the [n] pages from [start] on, in increasing order. *)
Fixpoint page_requests (console : string) (start : Z) (n : nat)
  : list (string * Z) :=
  match n with
  | O => []
  | S n' => (console, start) :: page_requests console (start + 1)%Z n'
  end.

(** Pages [start], ..., [start + n - 1] hold groups and page [start + n]
    holds none. *)
Definition first_empty_page (console : string) (start : Z) (n : nat) : Prop :=
  (forall i : nat, (i < n)%nat ->
     exists result, search_torrents console (start + Z.of_nat i)%Z = inr result
                    /\ result <> [])
  /\ search_torrents console (start + Z.of_nat n)%Z = inr [].

(** *** Download loop (lines 86-94) *)

Variable _token : string.
Variable _base_url : string.
Variable py_repr : pyval -> string.
Variable requests_get : list request -> request -> string + response.
Variable open_wb : list fs_event -> string -> bool.

(** The [try] block of one iteration. *)
Definition download_body (torrent : candidate) (dry : pyval)
  (write_location : string) : M unit :=
  let filename := Filename.filename_of (release_title torrent) in
  record_attempt (VStr (torrent_id torrent)) ;;;
  download_torrent _token _base_url py_repr requests_get open_wb
    (VStr (torrent_id torrent))
    (Some (write_location ++ filename ++ ".torrent")) dry ;;;
  ret tt.

(** One iteration: the [try] block and its handler. *)
Definition download_one (torrent : candidate) (dry : pyval)
  (write_location : string) : M unit :=
  try_except_GGNClientException
    (download_body torrent dry write_location)
    (fun e => print (PrintDownloadError (VStr (torrent_id torrent)) e)).

Fixpoint download_loop (items : list (Z * candidate)) (dry : pyval)
  (write_location : string) : M unit :=
  match items with
  | [] => ret tt
  | (_, torrent) :: rest =>
      download_one torrent dry write_location ;;;
      download_loop rest dry write_location
  end.

Definition download_phase (torrent_data : PyDict.t candidate) (dry : pyval)
  (write_location : string) : M unit :=
  download_loop (PyDict.items torrent_data) dry write_location ;;;
  print (PrintStr "Download complete.").

(** The script from [torrent_data = {}] on.  [None] when a scan reaches the
    bound [fuel]. *)
Definition main (fuel : nat) (console_list : list string) (dry : pyval)
  (write_location : string) (w : world)
  : option ((exc + unit) * list (string * Z) * world) :=
  match scan_consoles fuel console_list PyDict.empty [] with
  | None => None
  | Some (inl e, log) => Some (inl e, log, w)
  | Some (inr torrent_data, log) =>
      let (r, w') := download_phase torrent_data dry write_location w in
      Some (r, log, w')
  end.

End Scan.

(** The configured list. *)
Definition console_list : list string := ["Atari 2600"].

End Downloader.

(** ** Scenarios

    Concrete inputs: the scenarios of the specification and the environments
    used to exercise the definitions. *)

Module Scenarios.

Import Client Downloader.

Local Open Scope string_scope.

(** Group 20: torrent A (3 seeders, not snatched) and torrent B (1 seeder,
    snatched). *)
Definition torrent_A : torrent_entry :=
  {| TorrentType := "Torrent"; GameDOXType := ""; IsSnatched := false;
     GroupID := 20; Seeders := 3; ReleaseTitle := "Release A" |}.

Definition torrent_B : torrent_entry :=
  {| TorrentType := "Torrent"; GameDOXType := ""; IsSnatched := true;
     GroupID := 20; Seeders := 1; ReleaseTitle := "Release B" |}.

(** Group 30: two eligible torrents with the same number of seeders. *)
Definition torrent_C : torrent_entry :=
  {| TorrentType := "Torrent"; GameDOXType := ""; IsSnatched := false;
     GroupID := 30; Seeders := 5; ReleaseTitle := "Release C" |}.

Definition torrent_D : torrent_entry :=
  {| TorrentType := "Torrent"; GameDOXType := ""; IsSnatched := false;
     GroupID := 30; Seeders := 5; ReleaseTitle := "Release D" |}.

(** Page 1 holds group 20 with A before B; page 2 is empty. *)
Definition search_group_20 (console : string) (page_number : Z) : exc + page :=
  if (page_number =? 1)%Z then
    inr [("20", {| Torrents := Some [("A", torrent_A); ("B", torrent_B)] |})]
  else inr [].

(** Two pages of one group each, then an empty page. *)
Definition search_two_pages (console : string) (page_number : Z) : exc + page :=
  if (page_number =? 1)%Z then
    inr [("20", {| Torrents := Some [("A", torrent_A)] |})]
  else if (page_number =? 2)%Z then
    inr [("30", {| Torrents := Some [("C", torrent_C)] |})]
  else inr [].

(** Group 10 with one torrent of 5 seeders and group 11 without torrents
    on page 1; page 2 is empty. *)
Definition torrent_E : torrent_entry :=
  {| TorrentType := "Torrent"; GameDOXType := ""; IsSnatched := false;
     GroupID := 10; Seeders := 5; ReleaseTitle := "Combat (1977) [Atari]" |}.

Definition search_groups_10_11 (console : string) (page_number : Z)
  : exc + page :=
  if (page_number =? 1)%Z then
    inr [ ("10", {| Torrents := Some [("E", torrent_E)] |});
          ("11", {| Torrents := Some [] |}) ]
  else inr [].

(** A plan of two groups. *)
Definition plan_two : PyDict.t candidate :=
  [ (20%Z, candidate_of "A" torrent_A); (30%Z, candidate_of "C" torrent_C) ].

Definition base_url : string := "https://gazellegames.net/api.php".

Definition repr_stub (v : pyval) : string := "<repr>".

(** A network on which every request times out. *)
Definition network_down (history : list request) (rq : request)
  : string + response :=
  inl "timed out".

Definition user_body : pyval :=
  VDict [ ("status", VStr "success");
          ("response", VDict [ ("authkey", VStr "ak");
                               ("passkey", VStr "pk") ]) ].

(** A server that answers every request with the user record as JSON. *)
Definition network_user (history : list request) (rq : request)
  : string + response :=
  inr {| status_code := 200; text := ""; content := "";
         content_type := Some "application/json";
         json_body := Some user_body |}.

(** A server that refuses every request with status 403. *)
Definition network_forbidden (history : list request) (rq : request)
  : string + response :=
  inr {| status_code := 403; text := "forbidden"; content := "";
         content_type := Some "text/html"; json_body := None |}.

Definition fs_writable (history : list fs_event) (path : string) : bool := true.

(** A 200 response whose Content-Type carries a charset parameter and whose
    body is a failure envelope. *)
Definition response_with_charset : response :=
  {| status_code := 200; text := "{}"; content := "{}";
     content_type := Some "application/json; charset=utf-8";
     json_body := Some (VDict [("status", VStr "failure")]) |}.

Definition network_charset (history : list request) (rq : request)
  : string + response :=
  inr response_with_charset.

(** The state of a client whose user record is cached. *)
Definition world_with_user : world :=
  {| _user := Value (VDict [("authkey", VStr "ak"); ("passkey", VStr "pk")]);
     sent := []; fs := []; stdout := []; attempted := [] |}.

End Scenarios.

(** ** The API methods ([lib/ggn_client.py], lines 21-27 and 91-933)

    The header operations and the methods that do more than forward their
    arguments to [_do_request]. *)

Module Api.

Import Client.

Local Open Scope string_scope.

(** [Headers.add_header]: [self.extra_headers[key] = value]. *)
Definition add_header (key value : string) (h : Headers) : Headers :=
  {| token := token h;
     extra_headers := str_assign key value (extra_headers h) |}.

(** [Headers.remove_header]: [self.extra_headers.pop(key, None)]. *)
Definition remove_header (key : string) (h : Headers) : Headers :=
  {| token := token h;
     extra_headers := filter (fun kv => negb (key =? fst kv)) (extra_headers h) |}.

(** The default headers of [to_dict]. *)
Definition default_headers (tok : string) : list (string * string) :=
  [ ("Accept", "application/json");
    ("Content-Type", "application/json");
    ("X-API-Key", tok) ].

(** What a method raises: [GGNClientException(msg)] from its own argument
    checks, or whatever [_do_request] raises. *)
Inductive raised : Type :=
| ArgumentError (msg : string)
| Raised (e : exc).

(** Computations of the methods that check their arguments. *)
Definition C (A : Type) : Type := world -> (raised + A) * world.

Definition reject {A : Type} (msg : string) : C A :=
  fun w => (inl (ArgumentError msg), w).

Definition run {A : Type} (m : M A) : C A :=
  fun w =>
    match m w with
    | (inl e, w') => (inl (Raised e), w')
    | (inr a, w') => (inr a, w')
    end.

(** [v is True] *)
Definition is_True (v : pyval) : bool :=
  match v with VBool true => true | _ => false end.

(** [int(v is True) if v is not None else None] *)
Definition flag_arg (v : pyval) : pyval :=
  if is_None v then VNone else VInt (if is_True v then 1 else 0).

(** [v if v else None] *)
Definition or_None (v : pyval) : pyval :=
  if truthy v then v else VNone.

(** [v not in [s1, ..., sn, None]] for string literals [s1], ..., [sn]: a
    value is in the list when it is [None] or a string equal to one of
    them. *)
Definition not_in_strs_or_None (v : pyval) (allowed : list string) : bool :=
  match v with
  | VNone => false
  | VStr s => negb (existsb (String.eqb s) allowed)
  | _ => true
  end.

(** The keyword arguments of [search_torrents], in the order of the
    signature. *)
Record search_options : Type := mkSearch {
  search_str : pyval;
  group_name : pyval;
  artist_name : pyval;
  artist_check : pyval;
  year : pyval;
  remaster_title : pyval;
  remaster_year : pyval;
  release_title : pyval;
  release_group : pyval;
  file_list : pyval;
  size_small : pyval;
  size_large : pyval;
  user_rating : pyval;
  meta_rating : pyval;
  ign_rating : pyval;
  gs_rating : pyval;
  encoding : pyval;
  audio_format : pyval;
  region : pyval;
  language : pyval;
  rating : pyval;
  rating_strict : pyval;
  miscellaneous : pyval;
  game_dox : pyval;
  scene : pyval;
  dupable : pyval;
  free_torrent : pyval;
  checked : pyval;
  tag_list : pyval;
  tags_type : pyval;
  hide_dead : pyval;
  empty_groups : pyval;
  filter_cat_1 : pyval;
  filter_cat_2 : pyval;
  filter_cat_3 : pyval;
  filter_cat_4 : pyval;
  order_by : pyval;
  order_way : pyval;
  page : pyval
}.

(** The defaults of the signature: everything [None], [page = 1]. *)
Definition search_defaults : search_options :=
  {| search_str := VNone; group_name := VNone; artist_name := VNone;
     artist_check := VNone; year := VNone; remaster_title := VNone;
     remaster_year := VNone; release_title := VNone; release_group := VNone;
     file_list := VNone; size_small := VNone; size_large := VNone;
     user_rating := VNone; meta_rating := VNone; ign_rating := VNone;
     gs_rating := VNone; encoding := VNone; audio_format := VNone;
     region := VNone; language := VNone; rating := VNone;
     rating_strict := VNone; miscellaneous := VNone; game_dox := VNone;
     scene := VNone; dupable := VNone; free_torrent := VNone;
     checked := VNone; tag_list := VNone; tags_type := VNone;
     hide_dead := VNone; empty_groups := VNone; filter_cat_1 := VNone;
     filter_cat_2 := VNone; filter_cat_3 := VNone; filter_cat_4 := VNone;
     order_by := VNone; order_way := VNone; page := VInt 1 |}.

(** The [args] dict of [search_torrents] (lines 335-376), in its order. *)
Definition search_torrents_args (o : search_options) : list (string * pyval) :=
  [ ("search_type", VStr "torrents");
    ("searchstr", search_str o);
    ("groupname", group_name o);
    ("artistname", artist_name o);
    ("artistcheck", artist_check o);
    ("year", year o);
    ("remastertitle", remaster_title o);
    ("releasegroup", release_group o);
    ("remasteryear", remaster_year o);
    ("releasetitle", release_title o);
    ("filelist", file_list o);
    ("sizesmall", size_small o);
    ("sizelarge", size_large o);
    ("userrating", user_rating o);
    ("metarating", meta_rating o);
    ("ignrating", ign_rating o);
    ("gsrating", gs_rating o);
    ("encoding", encoding o);
    ("audioformat", audio_format o);
    ("region", region o);
    ("language", language o);
    ("rating", rating o);
    ("rating_strict", rating_strict o);
    ("miscellaneous", miscellaneous o);
    ("gamedox", game_dox o);
    ("scene", scene o);
    ("dupable", dupable o);
    ("freetorrent", free_torrent o);
    ("checked", flag_arg (checked o));
    ("taglist", tag_list o);
    ("tags_type", flag_arg (tags_type o));
    ("hide_dead", flag_arg (hide_dead o));
    ("emptygroups", empty_groups o);
    ("filtercat[1]", flag_arg (filter_cat_1 o));
    ("filtercat[2]", flag_arg (filter_cat_2 o));
    ("filtercat[3]", flag_arg (filter_cat_3 o));
    ("filtercat[4]", flag_arg (filter_cat_4 o));
    ("order_by", order_by o);
    ("order_way", order_way o);
    ("page", page o) ].

(** The keyword arguments of a call that sets [checked] alone. *)
Definition search_checked (v : pyval) : search_options :=
  {| search_str := VNone; group_name := VNone; artist_name := VNone;
     artist_check := VNone; year := VNone; remaster_title := VNone;
     remaster_year := VNone; release_title := VNone; release_group := VNone;
     file_list := VNone; size_small := VNone; size_large := VNone;
     user_rating := VNone; meta_rating := VNone; ign_rating := VNone;
     gs_rating := VNone; encoding := VNone; audio_format := VNone;
     region := VNone; language := VNone; rating := VNone;
     rating_strict := VNone; miscellaneous := VNone; game_dox := VNone;
     scene := VNone; dupable := VNone; free_torrent := VNone;
     checked := v; tag_list := VNone; tags_type := VNone;
     hide_dead := VNone; empty_groups := VNone; filter_cat_1 := VNone;
     filter_cat_2 := VNone; filter_cat_3 := VNone; filter_cat_4 := VNone;
     order_by := VNone; order_way := VNone; page := VInt 1 |}.

(** The keyword arguments of the call in [downloader.py], lines 36-42. *)
Definition downloader_search (console : string) (page_number : Z)
  : search_options :=
  {| search_str := VNone; group_name := VNone; artist_name := VStr console;
     artist_check := VNone; year := VNone; remaster_title := VNone;
     remaster_year := VNone; release_title := VNone; release_group := VNone;
     file_list := VNone; size_small := VNone; size_large := VNone;
     user_rating := VNone; meta_rating := VNone; ign_rating := VNone;
     gs_rating := VNone; encoding := VNone; audio_format := VNone;
     region := VNone; language := VNone; rating := VNone;
     rating_strict := VNone; miscellaneous := VNone; game_dox := VNone;
     scene := VNone; dupable := VNone; free_torrent := VNone;
     checked := VNone; tag_list := VNone; tags_type := VNone;
     hide_dead := VNone; empty_groups := VStr "filled"; filter_cat_1 := VNone;
     filter_cat_2 := VNone; filter_cat_3 := VNone; filter_cat_4 := VNone;
     order_by := VStr "groupname"; order_way := VStr "asc";
     page := VInt page_number |}.

Section Environment.

Variable _token : string.
Variable _base_url : string.
Variable py_repr : pyval -> string.
Variable requests_get : list request -> request -> string + response.

(** [str.upper] *)
Variable str_upper : string -> string.

(** [self._do_request(action=..., args=...)], with [dry] left at its default
    [False]. *)
Definition call (action : string) (args : list (string * pyval)) : M result :=
  _do_request _token _base_url py_repr requests_get
    (Some action) (Some args) None (VBool false).

(** [user_profile] (lines 118-139) *)
Definition user_profile (user_id name : pyval) : C result :=
  if negb (truthy user_id) && negb (truthy name) then
    reject "id or name must be provided"
  else if truthy user_id && truthy name then
    reject "only one of id or name can be provided"
  else
    run (call "user" [ ("id", or_None user_id);
                       ("username", or_None name) ]).

(** [inbox] (lines 169-201) *)
Definition inbox (sort search search_type message_type page_number : pyval)
  : C result :=
  if not_in_strs_or_None message_type ["inbox"; "sentbox"] then
    reject "type must be 'inbox' or 'sentbox', or None"
  else if not_in_strs_or_None sort ["unread"] then
    reject "sort must be 'unread' or None"
  else if not_in_strs_or_None search_type ["subject"; "message"; "user"] then
    reject "searchtype must be 'subject', 'message', or 'user', or None"
  else
    run (call "inbox" [ ("type", message_type);
                        ("page", page_number);
                        ("sort", sort);
                        ("search", search);
                        ("searchtype", search_type) ]).

(** [search_torrents] (lines 248-377) *)
Definition search_torrents (o : search_options) : M result :=
  call "search" (search_torrents_args o).

(** [torrent_hash.upper() if torrent_hash else None]: only a string has
    [upper]. *)
Definition hash_arg (torrent_hash : pyval) : exc + pyval :=
  if truthy torrent_hash then
    match torrent_hash with
    | VStr s => inr (VStr (str_upper s))
    | _ => inl AttributeError
    end
  else inr VNone.

(** [get_torrent] (lines 601-613) *)
Definition get_torrent (torrent_id torrent_hash : pyval) : M result :=
  h <- lift (hash_arg torrent_hash) ;;
  call "torrent" [ ("id", torrent_id); ("hash", h) ].

End Environment.

End Api.

(** ** More concrete inputs *)

Module Examples.

Import Client Downloader.

Local Open Scope string_scope.

(** A server that answers every request with 304 and no JSON. *)
Definition not_modified : response :=
  {| status_code := 304; text := ""; content := "";
     content_type := Some "text/html"; json_body := None |}.

Definition network_not_modified (history : list request) (rq : request)
  : string + response :=
  inr not_modified.

(** A JSON answer with a successful envelope. *)
Definition json_success : response :=
  {| status_code := 200; text := "{}"; content := "{}";
     content_type := Some "application/json";
     json_body := Some (VDict [ ("status", VStr "success");
                                ("response", VInt 7) ]) |}.

Definition network_json (history : list request) (rq : request)
  : string + response :=
  inr json_success.

(** A server that answers every request with a torrent file. *)
Definition torrent_file : response :=
  {| status_code := 200; text := "d8:announce"; content := "d8:announce";
     content_type := Some "application/x-bittorrent"; json_body := None |}.

Definition network_torrent (history : list request) (rq : request)
  : string + response :=
  inr torrent_file.

(** Page 1 holds a group, the request for page 2 fails. *)
Definition search_fails_on_page_2 (console : string) (page_number : Z)
  : exc + page :=
  if (page_number =? 1)%Z then
    inr [("20", {| Torrents := Some [("A", Scenarios.torrent_A)] |})]
  else inl (RequestException "timed out").

(** Every page holds the same group. *)
Definition search_endless (console : string) (page_number : Z) : exc + page :=
  inr [("20", {| Torrents := Some [("A", Scenarios.torrent_A)] |})].

(** Torrent F of group 20: 2 seeders, not snatched. *)
Definition torrent_F : torrent_entry :=
  {| TorrentType := "Torrent"; GameDOXType := ""; IsSnatched := false;
     GroupID := 20; Seeders := 2; ReleaseTitle := "Release F" |}.

(** A GameDOX entry of group 20 with many seeders. *)
Definition torrent_G : torrent_entry :=
  {| TorrentType := "Torrent"; GameDOXType := "Guide"; IsSnatched := false;
     GroupID := 20; Seeders := 99; ReleaseTitle := "Release G" |}.

(** A snatched GameDOX entry of group 20. *)
Definition torrent_H : torrent_entry :=
  {| TorrentType := "Torrent"; GameDOXType := "Update"; IsSnatched := true;
     GroupID := 20; Seeders := 1; ReleaseTitle := "Release H" |}.

Definition upper_stub (s : string) : string := "UPPER(" ++ s ++ ")".

End Examples.

(** * Properties *)

(** ** Dictionaries *)

Module PyDictFacts.

Import PyDict.

Lemma get_set_eq {V : Type} (k : Z) (v : V) (d : t V) :
  get k (set k v d) = Some v.
Proof.
  induction d as [|[k' v'] r IH]; simpl.
  - now rewrite Z.eqb_refl.
  - destruct (k =? k') eqn:E; simpl; rewrite ?Z.eqb_refl, ?E; auto.
Qed.

Lemma get_set_ne {V : Type} (k k' : Z) (v : V) (d : t V) :
  k' <> k -> get k' (set k v d) = get k' d.
Proof.
  intros Hne. assert (Hb : (k' =? k) = false) by now apply Z.eqb_neq.
  induction d as [|[k0 v0] r IH]; simpl.
  - now rewrite Hb.
  - destruct (k =? k0) eqn:E; simpl.
    + apply Z.eqb_eq in E. subst k0. now rewrite Hb.
    + destruct (k' =? k0); auto.
Qed.

Lemma get_pop_eq {V : Type} (k : Z) (d : t V) : get k (pop k d) = None.
Proof.
  induction d as [|[k' v'] r IH]; simpl; auto.
  destruct (k =? k') eqn:E; simpl; auto. now rewrite E.
Qed.

Lemma get_pop_ne {V : Type} (k k' : Z) (d : t V) :
  k' <> k -> get k' (pop k d) = get k' d.
Proof.
  intros Hne. assert (Hb : (k' =? k) = false) by now apply Z.eqb_neq.
  induction d as [|[k0 v0] r IH]; simpl; auto.
  destruct (k =? k0) eqn:E; simpl.
  - apply Z.eqb_eq in E. subst k0. now rewrite Hb.
  - destruct (k' =? k0); auto.
Qed.

Lemma pop_absent {V : Type} (k : Z) (d : t V) : get k d = None -> pop k d = d.
Proof.
  induction d as [|[k' v'] r IH]; simpl; auto.
  destruct (k =? k') eqn:E; simpl; [discriminate|].
  intros H. now rewrite IH.
Qed.

(** The conditional [pop] of the tool is the plain [pop]. *)
Lemma guarded_pop {V : Type} (k : Z) (d : t V) :
  (if contains k d then pop k d else d) = pop k d.
Proof.
  unfold contains. destruct (get k d) eqn:E; auto.
  symmetry. now apply pop_absent.
Qed.

End PyDictFacts.

(** ** Filename derivation *)

Module FilenameFacts.

Import Filename.

Local Open Scope string_scope.

Lemma table_lookup_file_translator (c : ascii) :
  table_lookup c file_translator =
  if is_reserved c then Some (String (translate_char c) "") else None.
Proof.
  destruct c as [[] [] [] [] [] [] [] []]; reflexivity.
Qed.

Lemma translate_char_unreserved (c : ascii) :
  is_reserved c = false -> translate_char c = c.
Proof.
  destruct c as [[] [] [] [] [] [] [] []]; simpl; intros H;
    try reflexivity; discriminate.
Qed.

(** C3, as the claim states it, fails: the slash is replaced by a hyphen,
    not by an underscore. *)
Lemma filename_slash_is_hyphen :
  filename_of "Pitfall II/Lost Caverns" = "Pitfall II-Lost Caverns"
  /\ sanitize_as_specified "Pitfall II/Lost Caverns" = "Pitfall II_Lost Caverns"
  /\ filename_of "Pitfall II/Lost Caverns"
     <> sanitize_as_specified "Pitfall II/Lost Caverns".
Proof.
  repeat split; try reflexivity. vm_compute. discriminate.
Qed.

(** C3, amended: filename derivation replaces the slash by a hyphen and each
    of the ten other characters of the set (the two brackets, the backslash,
    the double quote, star, question mark, less-than, greater-than, bar and
    colon) by an underscore, character by character, and leaves every other
    character unchanged; the title [Sonic: The Hedgehog [JP]] becomes
    [Sonic_ The Hedgehog _JP_]. *)
Theorem filename_of_by_char :
  (forall title : string,
      filename_of title =
      map_chars (fun c => if Ascii.eqb c "/" then "-"%char
                          else if is_reserved c then "_"%char
                          else c) title)
  /\ (forall c : ascii, is_reserved c = false -> filename_of (String c "") = String c "")
  /\ filename_of "Sonic: The Hedgehog [JP]" = "Sonic_ The Hedgehog _JP_".
Proof.
  split; [|split].
  - unfold filename_of.
    induction title as [|c r IH]; cbn [translate map_chars]; [reflexivity|].
    rewrite table_lookup_file_translator, IH.
    fold (translate_char c).
    destruct (is_reserved c) eqn:R; simpl.
    + reflexivity.
    + now rewrite translate_char_unreserved.
  - intros c H. unfold filename_of. cbn [translate].
    now rewrite table_lookup_file_translator, H.
  - reflexivity.
Qed.

End FilenameFacts.

(** ** Selection *)

Module SelectionFacts.

Import Client Downloader.

Local Open Scope string_scope.

Local Ltac filter_cases data :=
  unfold eligible, breaks, passes_filters in *;
  destruct (TorrentType data =? "Torrent");
  destruct (GameDOXType data =? "");
  destruct (IsSnatched data);
  simpl in *; try discriminate; auto.

Lemma scan_entries_skip tid data rest td :
  passes_filters data = false ->
  scan_entries ((tid, data) :: rest) td = scan_entries rest td.
Proof. intros H. simpl. filter_cases data. Qed.

Lemma scan_entries_break tid data rest td :
  breaks data = true ->
  scan_entries ((tid, data) :: rest) td = PyDict.pop (GroupID data) td.
Proof.
  intros H. simpl. rewrite PyDictFacts.guarded_pop. filter_cases data.
Qed.

Lemma scan_entries_offer tid data rest td :
  eligible data = true ->
  scan_entries ((tid, data) :: rest) td = scan_entries rest (offer tid data td).
Proof.
  intros H. simpl. unfold offer. filter_cases data.
  destruct (PyDict.get (GroupID data) td) as [c|]; auto.
  destruct (seeders c >? Seeders data)%Z; auto.
Qed.

(** Every entry is skipped, breaks the loop, or is offered to the map. *)
Lemma entry_cases data :
  passes_filters data = false \/ breaks data = true \/ eligible data = true.
Proof. filter_cases data. Qed.

Lemma breaks_not_eligible data : breaks data = true -> eligible data = false.
Proof. filter_cases data. Qed.

Lemma breaks_passes data : breaks data = true -> passes_filters data = true.
Proof. filter_cases data. Qed.

Lemma eligible_passes data : eligible data = true -> passes_filters data = true.
Proof. filter_cases data. Qed.

(** The scan of a list that contains a breaking entry after a prefix with
    none: the map is the one after the prefix, less the entry's group. *)
Lemma scan_entries_break_at pre tid s post td :
  no_break pre = true ->
  breaks s = true ->
  scan_entries (pre ++ (tid, s) :: post) td =
  PyDict.pop (GroupID s) (scan_entries pre td).
Proof.
  intros Hpre Hs. revert td.
  induction pre as [|[t d] pre IH]; intros td.
  - simpl app. now rewrite scan_entries_break.
  - simpl in Hpre. apply andb_true_iff in Hpre as [Hd Hpre].
    apply negb_true_iff in Hd.
    rewrite <- app_comm_cons.
    destruct (entry_cases d) as [Hf | [Hb | He]].
    + rewrite !scan_entries_skip by assumption. now apply IH.
    + congruence.
    + rewrite !scan_entries_offer by assumption. now apply IH.
Qed.

Lemma get_offer_same tid data td :
  exists c, PyDict.get (GroupID data) (offer tid data td) = Some c
            /\ (Seeders data <= seeders c)%Z
            /\ (forall c0, PyDict.get (GroupID data) td = Some c0 ->
                           (seeders c0 <= seeders c)%Z).
Proof.
  unfold offer.
  destruct (PyDict.get (GroupID data) td) as [c0|] eqn:E.
  - destruct (seeders c0 >? Seeders data)%Z eqn:G.
    + exists c0. rewrite E. repeat split; try lia.
      intros c1 H1. injection H1 as <-. lia.
    + exists (candidate_of tid data). rewrite PyDictFacts.get_set_eq.
      repeat split; simpl; try lia.
      intros c1 H1. injection H1 as <-. lia.
  - exists (candidate_of tid data). rewrite PyDictFacts.get_set_eq.
    repeat split; simpl; try lia. intros c1 H1. discriminate.
Qed.

Lemma get_offer_other tid data td g :
  g <> GroupID data -> PyDict.get g (offer tid data td) = PyDict.get g td.
Proof.
  intros Hne. unfold offer.
  destruct (PyDict.get (GroupID data) td) as [c0|].
  - destruct (seeders c0 >? Seeders data)%Z; auto.
    now apply PyDictFacts.get_set_ne.
  - now apply PyDictFacts.get_set_ne.
Qed.

(** Without a break, the seeder count recorded for a group never drops. *)
Lemma scan_entries_grows entries :
  no_break entries = true ->
  forall td g c,
    PyDict.get g td = Some c ->
    exists c', PyDict.get g (scan_entries entries td) = Some c'
               /\ (seeders c <= seeders c')%Z.
Proof.
  induction entries as [|[t d] rest IH]; intros Hnb td g c Hget.
  - exists c. split; [assumption | lia].
  - simpl in Hnb. apply andb_true_iff in Hnb as [Hd Hnb].
    apply negb_true_iff in Hd.
    destruct (entry_cases d) as [Hf | [Hb | He]].
    + rewrite scan_entries_skip by assumption. now apply IH.
    + congruence.
    + rewrite scan_entries_offer by assumption.
      destruct (Z.eq_dec g (GroupID d)) as [-> | Hne].
      * destruct (get_offer_same t d td) as (c1 & H1 & _ & Hmono).
        destruct (IH Hnb _ _ _ H1) as (c' & Hc' & Hle).
        exists c'. split; [assumption|].
        specialize (Hmono _ Hget). lia.
      * apply IH; [assumption|]. now rewrite get_offer_other.
Qed.

(** Without a break, the candidate of a group has at least as many seeders
    as every eligible entry of that group: the maximum survives. *)
Lemma scan_entries_max entries td tid data :
  no_break entries = true ->
  In (tid, data) entries ->
  eligible data = true ->
  exists c, PyDict.get (GroupID data) (scan_entries entries td) = Some c
            /\ (Seeders data <= seeders c)%Z.
Proof.
  revert td. induction entries as [|[t d] rest IH]; intros td Hnb Hin Hel.
  - destruct Hin.
  - simpl in Hnb. apply andb_true_iff in Hnb as [Hd Hnb].
    destruct Hin as [Heq | Hin].
    + injection Heq as -> ->.
      rewrite scan_entries_offer by assumption.
      destruct (get_offer_same tid data td) as (c1 & H1 & Hle & _).
      destruct (scan_entries_grows rest Hnb _ _ _ H1) as (c' & Hc' & Hle').
      exists c'. split; [assumption | lia].
    + apply negb_true_iff in Hd.
      destruct (entry_cases d) as [Hf | [Hb | He]].
      * rewrite scan_entries_skip by assumption. now apply IH.
      * congruence.
      * rewrite scan_entries_offer by assumption. now apply IH.
Qed.

(** C1: the code keeps the maximum seeder count ([scan_entries_max]) but
    not the first of two equal entries.  For two eligible entries of one
    group with equal seeder counts, offered in this order to a map without
    that group, the candidate recorded is the second one: the comparison
    skips the later entry only when the current candidate has strictly more
    seeders. *)
Theorem scan_entries_tie_keeps_later tid1 d1 tid2 d2 td :
  eligible d1 = true ->
  eligible d2 = true ->
  GroupID d2 = GroupID d1 ->
  Seeders d2 = Seeders d1 ->
  PyDict.get (GroupID d1) td = None ->
  PyDict.get (GroupID d1) (scan_entries [(tid1, d1); (tid2, d2)] td)
  = Some (candidate_of tid2 d2).
Proof.
  intros H1 H2 Hg Hs Hnone.
  rewrite !scan_entries_offer by assumption. cbn [scan_entries].
  assert (E1 : offer tid1 d1 td
               = PyDict.set (GroupID d1) (candidate_of tid1 d1) td)
    by (unfold offer; now rewrite Hnone).
  rewrite E1. unfold offer.
  rewrite Hg, PyDictFacts.get_set_eq. cbn [seeders candidate_of].
  rewrite Hs, Z.gtb_ltb, Z.ltb_irrefl.
  apply PyDictFacts.get_set_eq.
Qed.

Lemma scan_entries_tie_keeps_later_witness :
  PyDict.get 30
    (scan_entries [("C", Scenarios.torrent_C); ("D", Scenarios.torrent_D)]
       PyDict.empty)
  = Some (candidate_of "D" Scenarios.torrent_D).
Proof.
  apply (scan_entries_tie_keeps_later
           "C" Scenarios.torrent_C "D" Scenarios.torrent_D PyDict.empty);
    reflexivity.
Defined.

(** C2, as the claim states it, fails: with the snatched torrent B before
    the torrent A of the same group, A is never looked at and the group has
    no candidate, where a scan that went on would record A. *)
Lemma scan_stops_at_snatched_entry :
  scan_entries [("B", Scenarios.torrent_B); ("A", Scenarios.torrent_A)]
    PyDict.empty = PyDict.empty
  /\ PyDict.get 20
       (scan_entries_as_specified
          [("B", Scenarios.torrent_B); ("A", Scenarios.torrent_A)]
          PyDict.empty)
     = Some (candidate_of "A" Scenarios.torrent_A).
Proof. split; reflexivity. Qed.

(** C2, amended: when an entry that passes the type filters and is flagged
    as snatched is reached, the engine removes any candidate recorded for
    that entry's group identifier and leaves the entry list of the group:
    the entries after it are not examined, so the result does not depend on
    them. *)
Theorem scan_entries_snatched_ends_group pre tid s post td :
  no_break pre = true ->
  breaks s = true ->
  scan_entries (pre ++ (tid, s) :: post) td
  = PyDict.pop (GroupID s) (scan_entries pre td)
  /\ scan_entries (pre ++ (tid, s) :: post) td
     = scan_entries (pre ++ [(tid, s)]) td.
Proof.
  intros Hpre Hs. split.
  - now apply scan_entries_break_at.
  - now rewrite !scan_entries_break_at.
Qed.

Lemma scan_entries_snatched_ends_group_witness :
  scan_entries ([] ++ ("B", Scenarios.torrent_B) :: [("A", Scenarios.torrent_A)])
    PyDict.empty
  = PyDict.pop 20 (scan_entries [] PyDict.empty)
  /\ scan_entries
       ([] ++ ("B", Scenarios.torrent_B) :: [("A", Scenarios.torrent_A)])
       PyDict.empty
     = scan_entries ([] ++ [("B", Scenarios.torrent_B)]) PyDict.empty.
Proof.
  apply (scan_entries_snatched_ends_group
           [] "B" Scenarios.torrent_B [("A", Scenarios.torrent_A)] PyDict.empty);
    reflexivity.
Defined.

(** An entry that fails a type filter is as good as absent, wherever it
    stands in the list. *)
Lemma scan_entries_skip_at pre tid data post td :
  passes_filters data = false ->
  scan_entries (pre ++ (tid, data) :: post) td = scan_entries (pre ++ post) td.
Proof.
  intros Hf. revert td.
  induction pre as [|[t d] pre IH]; intros td.
  - cbn [app]. now apply scan_entries_skip.
  - rewrite <- !app_comm_cons.
    destruct (entry_cases d) as [Hd | [Hb | He]].
    + rewrite !scan_entries_skip by assumption. apply IH.
    + now rewrite !scan_entries_break.
    + rewrite !scan_entries_offer by assumption. apply IH.
Qed.

(** C6, as the claim states it, fails: a snatched entry that fails a type
    filter is skipped before the snatched test.  With torrent A of group 20
    recorded and a snatched GameDOX entry of group 20 after it, A stays the
    candidate of group 20. *)
Lemma snatched_gamedox_entry_keeps_candidate :
  IsSnatched Examples.torrent_H = true
  /\ GroupID Examples.torrent_H = GroupID Scenarios.torrent_A
  /\ scan_entries [("A", Scenarios.torrent_A); ("H", Examples.torrent_H)]
       PyDict.empty
     = [(20%Z, candidate_of "A" Scenarios.torrent_A)].
Proof. repeat split; reflexivity. Qed.

(** C6, amended: a snatched entry that has passed the TorrentType and
    GameDOXType filters removes the candidate of its group from the map at
    that point, and nothing else: the map is the one built so far without
    that group, whatever was recorded for the group before (more seeders,
    not snatched), and the candidates of all other groups stay.  A snatched
    entry that fails a type filter is skipped and removes nothing.  In the
    scenario of group 20 (A with 3 seeders and not snatched, then B with 1
    seeder and snatched, on page 1) the scan ends with a plan that has no
    group 20, although A alone would have been recorded. *)
Theorem snatched_entry_voids_group pre tid s post td :
  no_break pre = true ->
  IsSnatched s = true ->
  (if passes_filters s then
     scan_entries (pre ++ (tid, s) :: post) td
     = PyDict.pop (GroupID s) (scan_entries pre td)
     /\ PyDict.get (GroupID s) (scan_entries (pre ++ (tid, s) :: post) td) = None
     /\ (forall g, g <> GroupID s ->
           PyDict.get g (scan_entries (pre ++ (tid, s) :: post) td)
           = PyDict.get g (scan_entries pre td))
   else
     scan_entries (pre ++ (tid, s) :: post) td = scan_entries (pre ++ post) td)
  /\ PyDict.get 20 (scan_entries [("A", Scenarios.torrent_A)] PyDict.empty)
     = Some (candidate_of "A" Scenarios.torrent_A)
  /\ scan_consoles Scenarios.search_group_20 3 console_list PyDict.empty []
     = Some (inr PyDict.empty, [("Atari 2600", 1%Z); ("Atari 2600", 2%Z)]).
Proof.
  intros Hpre Hs. split; [|split; reflexivity].
  destruct (passes_filters s) eqn:Hf.
  - assert (Hb : breaks s = true) by (unfold breaks; now rewrite Hf, Hs).
    rewrite scan_entries_break_at by assumption.
    split; [reflexivity|]. split.
    + apply PyDictFacts.get_pop_eq.
    + intros g Hg. now apply PyDictFacts.get_pop_ne.
  - now apply scan_entries_skip_at.
Qed.

Lemma snatched_entry_voids_group_witness :
  scan_entries ([("C", Scenarios.torrent_C); ("A", Scenarios.torrent_A)]
                ++ ("B", Scenarios.torrent_B) :: [("F", Examples.torrent_F)])
    PyDict.empty
  = [(30%Z, candidate_of "C" Scenarios.torrent_C)].
Proof.
  pose proof (snatched_entry_voids_group
                [("C", Scenarios.torrent_C); ("A", Scenarios.torrent_A)]
                "B" Scenarios.torrent_B [("F", Examples.torrent_F)]
                PyDict.empty eq_refl eq_refl) as [[H _] _].
  exact H.
Defined.

End SelectionFacts.

(** ** Pagination *)

Module PaginationFacts.

Import Client Downloader.

Lemma page_requests_seq console start n :
  page_requests console start n
  = map (fun i => (console, (start + Z.of_nat i)%Z)) (seq 0 n).
Proof.
  revert start. induction n as [|n IH]; intros start; [reflexivity|].
  cbn [page_requests seq map]. rewrite Z.add_0_r. f_equal.
  rewrite IH, <- seq_shift, map_map.
  apply map_ext. intros i. f_equal. lia.
Qed.

Section OneConsole.

Variable search_torrents : string -> Z -> exc + page.
Variable console : string.

Lemma first_empty_page_next start n :
  first_empty_page search_torrents console start (S n) ->
  first_empty_page search_torrents console (start + 1)%Z n.
Proof.
  intros [Hfull Hempty]. split.
  - intros i Hi. destruct (Hfull (S i)) as (r & Hr & Hne); [lia|].
    exists r. split; [|assumption].
    now replace (start + 1 + Z.of_nat i)%Z with (start + Z.of_nat (S i))%Z by lia.
  - now replace (start + 1 + Z.of_nat n)%Z with (start + Z.of_nat (S n))%Z by lia.
Qed.

(** With enough fuel the loop of one console returns: it has requested the
    pages up to the first empty one, each once and in order, and processed
    the pages before it. *)
Lemma scan_console_run n :
  forall start torrent_data log fuel,
    first_empty_page search_torrents console start n ->
    (n < fuel)%nat ->
    scan_console search_torrents fuel console start torrent_data log
    = Some (inr (after_pages search_torrents console start n torrent_data),
            log ++ page_requests console start (S n)).
Proof.
  induction n as [|n IH]; intros start td log fuel Hpages Hfuel;
    (destruct fuel as [|fuel]; [lia|]).
  - destruct Hpages as [_ Hempty]. rewrite Z.add_0_r in Hempty.
    cbn [scan_console]. rewrite Hempty. reflexivity.
  - pose proof Hpages as [Hfull _].
    destruct (Hfull 0%nat) as (r & Hr & Hne); [lia|].
    rewrite Z.add_0_r in Hr.
    cbn [scan_console after_pages]. rewrite Hr.
    destruct r as [|g r]; [contradiction|].
    replace (Z.of_nat (List.length (g :: r)) =? 0)%Z with false
      by (symmetry; apply Z.eqb_neq; cbn [List.length]; lia).
    rewrite (IH (start + 1)%Z) by
      (try lia; now apply first_empty_page_next).
    cbn [page_requests]. now rewrite <- app_assoc.
Qed.

End OneConsole.

(** C5: a category scan requests page 1, then each next page number in turn,
    and stops at the first page without groups: with [n] pages that hold
    groups before it, the requests are exactly pages 1 to [n + 1], in order,
    the map is the one after pages 1 to [n], and the scan returns. *)
Theorem scan_stops_at_first_empty_page
  (search_torrents : string -> Z -> exc + page) (console : string) (n : nat)
  (torrent_data : PyDict.t candidate) (log : list (string * Z)) (fuel : nat) :
  first_empty_page search_torrents console 1 n ->
  (n < fuel)%nat ->
  scan_consoles search_torrents fuel [console] torrent_data log
  = Some (inr (after_pages search_torrents console 1 n torrent_data),
          log ++ map (fun i => (console, (1 + Z.of_nat i)%Z)) (seq 0 (S n))).
Proof.
  intros Hpages Hfuel. cbn [scan_consoles].
  rewrite (scan_console_run search_torrents console n) by assumption.
  now rewrite page_requests_seq.
Qed.

Lemma scan_stops_at_first_empty_page_witness :
  scan_consoles Scenarios.search_two_pages 3 ["Atari 2600"%string] PyDict.empty []
  = Some (inr (after_pages Scenarios.search_two_pages "Atari 2600" 1 2 PyDict.empty),
          [] ++ map (fun i => ("Atari 2600"%string, (1 + Z.of_nat i)%Z))
                  (seq 0 3)).
Proof.
  apply (scan_stops_at_first_empty_page
           Scenarios.search_two_pages "Atari 2600" 2 PyDict.empty [] 3).
  - split.
    + intros [|[|i]] Hi; [eexists; split; [reflexivity | discriminate] ..|lia].
    + reflexivity.
  - lia.
Defined.

End PaginationFacts.

(** ** The request pipeline *)

Module ClientFacts.

Import Client.

Local Open Scope string_scope.

Lemma header_is_spec (h : option string) (s : string) :
  header_is h s = true <-> h = Some s.
Proof.
  destruct h as [x|]; simpl.
  - rewrite String.eqb_eq. split; congruence.
  - split; discriminate.
Qed.

Lemma content_type_ne_header_is (r : response) (s : string) :
  content_type_ne r s = negb (header_is (content_type r) s).
Proof. unfold content_type_ne, header_is. now destruct (content_type r). Qed.

Lemma success_status_is_ok (r : response) :
  (200 <= status_code r < 300)%Z -> response_ok r = true.
Proof.
  intros H. unfold response_ok.
  replace (status_code r <? 600)%Z with true by (symmetry; apply Z.ltb_lt; lia).
  replace (400 <=? status_code r)%Z with false by (symmetry; apply Z.leb_gt; lia).
  reflexivity.
Qed.

Section Environment.

Variable _token : string.
Variable _base_url : string.
Variable py_repr : pyval -> string.
Variable requests_get : list request -> request -> string + response.
Variable open_wb : list fs_event -> string -> bool.

Local Abbreviation action_url := (_action_url _base_url py_repr).
Local Abbreviation do_request := (_do_request _token _base_url py_repr requests_get).
Local Abbreviation request_of := (request_for _token _base_url py_repr).

(** A dry run of [_do_request] returns the endpoint and touches nothing. *)
Lemma do_request_dry action args override dry w :
  truthy dry = true ->
  do_request action args override dry w
  = (inr (Endpoint (action_url action args override)), w).
Proof. intros H. unfold _do_request. now rewrite H. Qed.

(** A call that is not a dry run sends exactly one request and leaves the
    user cache, the file system and the output alone. *)
Lemma do_request_sends_one action args override dry w :
  truthy dry = false ->
  snd (do_request action args override dry w)
  = after_request (request_of action args override) w.
Proof.
  intros H. unfold _do_request. rewrite H.
  unfold bind, http_get, raise, ret, lift. fold (request_of action args override).
  destruct (requests_get (sent w) (request_of action args override)) as [why|r];
    [reflexivity|].
  destruct (response_ok r); [|reflexivity]. simpl negb. cbv iota.
  destruct (content_type_ne r "application/json"); [reflexivity|].
  destruct (response_json r) as [e|json]; [reflexivity|].
  destruct (getitem (Value json) "status") as [e|st]; [reflexivity|].
  destruct (ne_str st "success"); [reflexivity|].
  destruct (getitem (Value json) "response"); reflexivity.
Qed.

End Environment.

(** C9: a parameter whose value is [None] leaves no trace in the URL.  Two
    parameter dicts with the same non-[None] items, in the same order, give
    the same URL whatever [None]-valued parameters either holds (both dicts
    being empty or both non-empty), and with an action and a non-empty dict
    the query string lists exactly the non-[None] parameters as [key=value]
    joined by [&]. *)
Theorem action_url_omits_None (_base_url : string) (py_repr : pyval -> string)
  (action : option string) (args args' : list (string * pyval))
  (override_url : option string) :
  non_None args = non_None args' ->
  (args = [] <-> args' = []) ->
  _action_url _base_url py_repr action (Some args) override_url
  = _action_url _base_url py_repr action (Some args') override_url
  /\ (str_truthy action = true -> args <> [] ->
      exists base a,
        action = Some a
        /\ _action_url _base_url py_repr None None override_url = base
        /\ _action_url _base_url py_repr action (Some args) override_url
           = base ++ "&request=" ++ a ++ "&" ++ "&"
             ++ String.concat "&"
                  (map (fun kv => fst kv ++ "=" ++ py_str py_repr (snd kv))
                     (non_None args))).
Proof.
  intros Hsame Hempty. split.
  - unfold _action_url.
    destruct action as [a|]; [|reflexivity].
    destruct (negb (str_truthy (Some a))); [reflexivity|].
    destruct args as [|x l], args' as [|x' l']; try reflexivity.
    + destruct Hempty as [H _]. discriminate (H eq_refl).
    + destruct Hempty as [_ H]. discriminate (H eq_refl).
    + unfold non_None in Hsame. now rewrite Hsame.
  - intros Hact Hne. destruct action as [a|]; [|discriminate].
    eexists _, a. split; [reflexivity|]. split; [reflexivity|].
    unfold _action_url. rewrite Hact. cbn [negb].
    destruct args as [|x l]; [contradiction|]. reflexivity.
Qed.

Lemma action_url_omits_None_witness :
  _action_url Scenarios.base_url Scenarios.repr_stub (Some "search")
    (Some [("searchstr", VNone); ("artistname", VStr "Atari 2600");
           ("year", VNone); ("page", VInt 1)]) None
  = _action_url Scenarios.base_url Scenarios.repr_stub (Some "search")
      (Some [("artistname", VStr "Atari 2600"); ("page", VInt 1)]) None.
Proof.
  apply (action_url_omits_None Scenarios.base_url Scenarios.repr_stub
           (Some "search")
           [("searchstr", VNone); ("artistname", VStr "Atari 2600");
            ("year", VNone); ("page", VInt 1)]
           [("artistname", VStr "Atari 2600"); ("page", VInt 1)] None).
  - reflexivity.
  - split; discriminate.
Defined.

(** C10: for a response with a 2xx status, the body is parsed and its
    status field checked exactly when the Content-Type header is the string
    [application/json]; with any other value, a charset parameter appended
    or no header at all, the call returns the response object itself and
    raises nothing. *)
Theorem do_request_content_type_exact (_token _base_url : string)
  (py_repr : pyval -> string)
  (requests_get : list request -> request -> string + response)
  (action : option string) (args : option (list (string * pyval)))
  (override_url : option string) (dry : pyval) (w : world) (r : response) :
  truthy dry = false ->
  requests_get (sent w) (request_for _token _base_url py_repr action args override_url)
  = inr r ->
  (200 <= status_code r < 300)%Z ->
  _do_request _token _base_url py_repr requests_get action args override_url dry w
  = (if header_is (content_type r) "application/json"
     then interpret_json action r
     else inr (Raw r),
     after_request (request_for _token _base_url py_repr action args override_url) w)
  /\ (header_is (content_type r) "application/json" = true
      <-> content_type r = Some "application/json")
  /\ header_is (Some "application/json; charset=utf-8") "application/json" = false
  /\ header_is None "application/json" = false.
Proof.
  intros Hdry Hget Hstatus. split; [|split; [apply header_is_spec | split; reflexivity]].
  unfold _do_request. rewrite Hdry.
  unfold bind, http_get, raise, ret, lift.
  fold (request_for _token _base_url py_repr action args override_url).
  rewrite Hget, (success_status_is_ok r Hstatus). cbn [negb].
  rewrite content_type_ne_header_is.
  fold (after_request (request_for _token _base_url py_repr action args override_url) w).
  destruct (header_is (content_type r) "application/json"); cbn [negb];
    [|reflexivity].
  unfold interpret_json, response_json.
  destruct (json_body r) as [json|]; [|reflexivity].
  destruct (getitem (Value json) "status") as [e|st]; [reflexivity|].
  destruct (ne_str st "success"); [reflexivity|].
  destruct (getitem (Value json) "response"); reflexivity.
Qed.

Lemma do_request_content_type_exact_witness :
  _do_request "token" Scenarios.base_url Scenarios.repr_stub
    Scenarios.network_charset (Some "quick_user") None None (VBool false)
    initial_world
  = (inr (Raw Scenarios.response_with_charset),
     after_request
       (request_for "token" Scenarios.base_url Scenarios.repr_stub
          (Some "quick_user") None None) initial_world).
Proof.
  apply (do_request_content_type_exact "token" Scenarios.base_url
           Scenarios.repr_stub Scenarios.network_charset
           (Some "quick_user") None None (VBool false) initial_world
           Scenarios.response_with_charset).
  - reflexivity.
  - reflexivity.
  - simpl. lia.
Defined.

End ClientFacts.

(** ** Downloads *)

Module DownloadFacts.

Import Client Downloader.

Local Open Scope string_scope.

Lemma truthy_not_None_nor_False (dry : pyval) :
  truthy dry = true -> is_None dry || is_False dry = false.
Proof. destruct dry as [|[]| | | |]; simpl; congruence. Qed.

Section Environment.

Variable _token : string.
Variable _base_url : string.
Variable py_repr : pyval -> string.
Variable requests_get : list request -> request -> string + response.
Variable open_wb : list fs_event -> string -> bool.

Local Abbreviation action_url := (_action_url _base_url py_repr).
Local Abbreviation do_request := (_do_request _token _base_url py_repr requests_get).
Local Abbreviation request_of := (request_for _token _base_url py_repr).
Local Abbreviation download :=
  (download_torrent _token _base_url py_repr requests_get open_wb).

(** Filling the user cache sends the user-info request when the cache is
    empty, and nothing otherwise; it never writes files or prints. *)
Lemma ensure_user_effects w :
  let out := ensure_user _token _base_url py_repr requests_get w in
  fs (snd out) = fs w
  /\ stdout (snd out) = stdout w
  /\ attempted (snd out) = attempted w
  /\ sent (snd out)
     = (if is_None_result (_user w)
        then (sent w ++ [request_of (Some "quick_user") None None])%list
        else sent w).
Proof.
  unfold ensure_user, bind, get_user. cbn beta iota.
  destruct (is_None_result (_user w)); [|now cbn].
  unfold quick_user.
  pose proof (ClientFacts.do_request_sends_one _token _base_url py_repr
                requests_get (Some "quick_user") None None (VBool false) w
                eq_refl) as Hsnd.
  destruct (_do_request _token _base_url py_repr requests_get
              (Some "quick_user") None None (VBool false) w) as [[e|u] w1];
    cbn [snd] in Hsnd; subst w1; now cbn.
Qed.

(** A dry-run download, step by step. *)
Lemma download_torrent_dry_eq torrent_id write_location dry w :
  truthy dry = true ->
  download torrent_id write_location dry w
  = match ensure_user _token _base_url py_repr requests_get w with
    | (inl e, w1) => (inl e, w1)
    | (inr _, w1) =>
        match getitem (_user w1) "authkey" with
        | inl e => (inl e, w1)
        | inr authkey =>
            match getitem (_user w1) "passkey" with
            | inl e => (inl e, w1)
            | inr passkey =>
                (inr VNone,
                 snd (print
                        (PrintResult
                           (Endpoint
                              (action_url (Some "download")
                                 (Some [ ("id", torrent_id);
                                         ("authkey", authkey);
                                         ("torrent_pass", passkey) ])
                                 (Some download_url)))) w1))
            end
        end
    end.
Proof.
  intros Hdry. unfold download_torrent.
  rewrite (truthy_not_None_nor_False dry Hdry). cbn [andb].
  unfold bind, get_user, lift.
  destruct (ensure_user _token _base_url py_repr requests_get w)
    as [[e|[]] w1]; [reflexivity|].
  destruct (getitem (_user w1) "authkey") as [e|authkey]; [reflexivity|].
  destruct (getitem (_user w1) "passkey") as [e|passkey]; [reflexivity|].
  rewrite ClientFacts.do_request_dry by assumption.
  rewrite Hdry. reflexivity.
Qed.

(** [download_torrent] does not touch the record of attempts. *)
Lemma download_torrent_attempted torrent_id write_location dry w :
  attempted (snd (download torrent_id write_location dry w)) = attempted w.
Proof.
  pose proof (ensure_user_effects w)
    as (_ & _ & Hatt & _).
  destruct (truthy dry) eqn:Hdry.
  - rewrite download_torrent_dry_eq by assumption.
    destruct (ensure_user _token _base_url py_repr requests_get w)
      as [[e|[]] w1]; cbn [snd] in Hatt; [assumption|].
    destruct (getitem (_user w1) "authkey"); [assumption|].
    destruct (getitem (_user w1) "passkey"); assumption.
  - unfold download_torrent.
    destruct ((is_None dry || is_False dry)
              && match write_location with None => true | Some _ => false end);
      [reflexivity|].
    unfold bind at 1.
    destruct (ensure_user _token _base_url py_repr requests_get w)
      as [[e|[]] w1]; cbn [snd] in Hatt; [assumption|].
    unfold bind at 1. unfold get_user. cbn beta iota.
    unfold bind at 1. unfold lift at 1.
    destruct (getitem (_user w1) "authkey") as [e|authkey]; [assumption|].
    unfold bind at 1. unfold lift at 1.
    destruct (getitem (_user w1) "passkey") as [e|passkey]; [assumption|].
    unfold bind at 1.
    pose proof (ClientFacts.do_request_sends_one _token _base_url py_repr
                  requests_get (Some "download")
                  (Some [("id", torrent_id); ("authkey", authkey);
                         ("torrent_pass", passkey)])
                  (Some download_url) dry w1 Hdry) as Hsnd.
    destruct (_do_request _token _base_url py_repr requests_get
                (Some "download")
                (Some [("id", torrent_id); ("authkey", authkey);
                       ("torrent_pass", passkey)])
                (Some download_url) dry w1) as [[e|resp] w2];
      cbn [snd] in Hsnd; subst w2; [assumption|].
    rewrite Hdry.
    unfold bind, open_for_write, raise, record_fs, lift, print, ret.
    destruct write_location as [path|]; [|assumption].
    destruct (open_wb (fs (after_request _ w1)) path); [|assumption].
    cbn. destruct (content_of resp); assumption.
Qed.

(** The [try] block records its torrent and nothing else. *)
Lemma download_body_attempted torrent dry write_location w :
  attempted
    (snd (download_body _token _base_url py_repr requests_get open_wb
            torrent dry write_location w))
  = (attempted w ++ [VStr (Downloader.torrent_id torrent)])%list.
Proof.
  unfold download_body, bind at 1, record_attempt. cbn beta iota.
  unfold bind.
  match goal with
  | |- context [download ?t ?l ?d ?w0] =>
      pose proof (download_torrent_attempted t l d w0) as H;
      destruct (download t l d w0) as [[e|v] w1]
  end; cbn [snd attempted] in *; assumption.
Qed.

(** One iteration ends normally or with an exception that is not a
    [GGNClientException]; either way the torrent has been attempted. *)
Lemma download_one_outcome torrent dry write_location w :
  let out :=
    download_one _token _base_url py_repr requests_get open_wb
      torrent dry write_location w in
  attempted (snd out)
  = (attempted w ++ [VStr (Downloader.torrent_id torrent)])%list
  /\ match fst out with
     | inr _ => True
     | inl e => is_GGNClientException e = false
     end.
Proof.
  unfold download_one, try_except_GGNClientException.
  pose proof (download_body_attempted torrent dry write_location w) as H.
  destruct (download_body _token _base_url py_repr requests_get open_wb
              torrent dry write_location w) as [[e|[]] w1];
    cbn [snd] in H.
  - destruct (is_GGNClientException e) eqn:E; cbn; auto.
  - cbn. auto.
Qed.

Lemma download_loop_outcome items dry write_location :
  forall w,
    let out :=
      download_loop _token _base_url py_repr requests_get open_wb
        items dry write_location w in
    match fst out with
    | inr _ =>
        attempted (snd out)
        = (attempted w
           ++ map (fun kv => VStr (Downloader.torrent_id (snd kv))) items)%list
    | inl e => is_GGNClientException e = false
    end.
Proof.
  induction items as [|[g torrent] rest IH]; intros w.
  - cbn. now rewrite app_nil_r.
  - cbn [download_loop]. unfold bind.
    pose proof (download_one_outcome torrent dry write_location w) as [Hatt Hres].
    destruct (download_one _token _base_url py_repr requests_get open_wb
                torrent dry write_location w) as [[e|[]] w1];
      cbn [fst snd] in Hatt, Hres.
    + cbn. assumption.
    + specialize (IH w1). cbv zeta in IH |- *.
      destruct (fst (download_loop _token _base_url py_repr requests_get
                       open_wb rest dry write_location w1)); [assumption|].
      rewrite IH, Hatt. cbn [map snd]. now rewrite <- app_assoc.
Qed.

End Environment.

(** C8, as the claim states it, fails: the first dry-run download of a
    client sends the user-info request, whose response body is received and
    parsed into the cache, and the call returns [None], not the URL. *)
Lemma dry_download_fetches_user :
  let out :=
    download_torrent "token" Scenarios.base_url Scenarios.repr_stub
      Scenarios.network_user Scenarios.fs_writable
      (VInt 5) None (VBool true) initial_world in
  fst out = inr VNone
  /\ map req_url (sent (snd out))
     = ["https://gazellegames.net/api.php?&request=quick_user&"]
  /\ _user (snd out)
     = Value (VDict [("authkey", VStr "ak"); ("passkey", VStr "pk")])
  /\ stdout (snd out)
     = [PrintResult
          (Endpoint "https://gazellegames.net/torrents.php?&request=download&&id=5&authkey=ak&torrent_pass=pk")].
Proof. repeat split; reflexivity. Qed.

(** C8, amended: a dry-run download writes no file and sends no download
    request.  The only request it can send is the user-info request, sent
    when the user record is not cached yet.  When it returns, it returns
    [None] after printing the endpoint URL, which is the URL built from the
    torrent id and the cached auth key and pass key; [_do_request] itself,
    on a dry run, returns that URL and leaves the state as it was. *)
Theorem download_torrent_dry (_token _base_url : string)
  (py_repr : pyval -> string)
  (requests_get : list request -> request -> string + response)
  (open_wb : list fs_event -> string -> bool)
  (torrent_id : pyval) (write_location : option string) (dry : pyval)
  (w : world) :
  truthy dry = true ->
  let out :=
    download_torrent _token _base_url py_repr requests_get open_wb
      torrent_id write_location dry w in
  fs (snd out) = fs w
  /\ sent (snd out)
     = (if is_None_result (_user w)
        then (sent w
              ++ [request_for _token _base_url py_repr (Some "quick_user") None None])%list
        else sent w)
  /\ match fst out with
     | inr v =>
         v = VNone
         /\ exists authkey passkey,
             getitem (_user (snd out)) "authkey" = inr authkey
             /\ getitem (_user (snd out)) "passkey" = inr passkey
             /\ stdout (snd out)
                = (stdout w
                   ++ [PrintResult
                         (Endpoint
                            (_action_url _base_url py_repr (Some "download")
                               (Some [ ("id", torrent_id);
                                       ("authkey", authkey);
                                       ("torrent_pass", passkey) ])
                               (Some download_url)))])%list
     | inl _ => stdout (snd out) = stdout w
     end
  /\ forall action args override_url w0,
      _do_request _token _base_url py_repr requests_get
        action args override_url dry w0
      = (inr (Endpoint (_action_url _base_url py_repr action args override_url)),
         w0).
Proof.
  intros Hdry out. subst out.
  pose proof (ensure_user_effects _token _base_url py_repr requests_get w)
    as (Hfs & Hout & _ & Hsent).
  rewrite download_torrent_dry_eq by assumption.
  assert (Hdo : forall action args override_url w0,
             _do_request _token _base_url py_repr requests_get
               action args override_url dry w0
             = (inr (Endpoint
                       (_action_url _base_url py_repr action args override_url)),
                w0))
    by (intros; now apply ClientFacts.do_request_dry).
  destruct (ensure_user _token _base_url py_repr requests_get w)
    as [[e|[]] w1]; cbn [snd] in Hfs, Hout, Hsent.
  - cbn [fst snd]. auto.
  - destruct (getitem (_user w1) "authkey") as [e|authkey] eqn:Ha;
      [cbn [fst snd]; auto|].
    destruct (getitem (_user w1) "passkey") as [e|passkey] eqn:Hp;
      [cbn [fst snd]; auto|].
    unfold print. cbn [fst snd fs sent stdout _user].
    repeat split; auto.
    exists authkey, passkey. rewrite Hout. auto.
Qed.

Lemma download_torrent_dry_witness :
  let out :=
    download_torrent "token" Scenarios.base_url Scenarios.repr_stub
      Scenarios.network_down Scenarios.fs_writable
      (VInt 5) None (VBool true) Scenarios.world_with_user in
  fs (snd out) = [] /\ sent (snd out) = [].
Proof.
  destruct (download_torrent_dry "token" Scenarios.base_url Scenarios.repr_stub
              Scenarios.network_down Scenarios.fs_writable
              (VInt 5) None (VBool true) Scenarios.world_with_user eq_refl)
    as (Hfs & Hsent & _).
  split; [exact Hfs | exact Hsent].
Defined.

(** C4, as the claim states it, fails: a request that times out raises an
    exception the loop does not catch.  With a plan of two groups and a
    network that is down, the loop ends at the first group: the second is
    never attempted, nothing is printed, and the exception leaves the
    loop. *)
Lemma download_loop_aborts_on_timeout :
  let out :=
    download_phase "token" Scenarios.base_url Scenarios.repr_stub
      Scenarios.network_down Scenarios.fs_writable
      Scenarios.plan_two (VBool true) "./" initial_world in
  fst out = inl (RequestException "timed out")
  /\ attempted (snd out) = [VStr "A"]
  /\ stdout (snd out) = [].
Proof. repeat split; reflexivity. Qed.

(** With a server that refuses every request, both downloads fail with a
    [GGNClientException]; both are attempted and reported and the loop
    completes. *)
Example download_phase_survives_api_errors :
  let out :=
    download_phase "token" Scenarios.base_url Scenarios.repr_stub
      Scenarios.network_forbidden Scenarios.fs_writable
      Scenarios.plan_two (VBool true) "./" initial_world in
  fst out = inr tt
  /\ attempted (snd out) = [VStr "A"; VStr "C"]
  /\ stdout (snd out)
     = [ PrintDownloadError (VStr "A")
           (GGNClientException (Some "quick_user") (HttpFailure 403 "forbidden"));
         PrintDownloadError (VStr "C")
           (GGNClientException (Some "quick_user") (HttpFailure 403 "forbidden"));
         PrintStr "Download complete." ].
Proof. repeat split; reflexivity. Qed.

(** A loop over a plan whose first part completes goes on with the rest. *)
Lemma download_loop_app (_token _base_url : string)
  (py_repr : pyval -> string)
  (requests_get : list request -> request -> string + response)
  (open_wb : list fs_event -> string -> bool)
  (pre rest : list (Z * candidate)) (dry : pyval) (write_location : string) :
  forall w w1,
    download_loop _token _base_url py_repr requests_get open_wb
      pre dry write_location w = (inr tt, w1) ->
    download_loop _token _base_url py_repr requests_get open_wb
      (pre ++ rest)%list dry write_location w
    = download_loop _token _base_url py_repr requests_get open_wb
        rest dry write_location w1.
Proof.
  induction pre as [|[g torrent] pre IH]; intros w w1 Hpre.
  - cbn in Hpre. injection Hpre as <-. reflexivity.
  - rewrite <- app_comm_cons. cbn [download_loop] in Hpre |- *.
    unfold bind in Hpre |- *.
    destruct (download_one _token _base_url py_repr requests_get open_wb
                torrent dry write_location w) as [[e|[]] w0];
      [discriminate|].
    now apply IH.
Qed.

(** C4, amended: in the download phase a failure raised as
    [GGNClientException] is caught and reported, and the loop goes on with
    the groups after it; when the phase completes, a download has been
    attempted for every group of the plan, in order, and the completion line
    is printed last.  A failure of any other kind (a transport error or
    timeout, a missing key, a file that cannot be opened) is not caught: it
    ends the phase at that group, with that exception, the groups after it
    unattempted and the completion line unprinted. *)
Theorem download_phase_outcome (_token _base_url : string)
  (py_repr : pyval -> string)
  (requests_get : list request -> request -> string + response)
  (open_wb : list fs_event -> string -> bool)
  (plan : PyDict.t candidate)
  (pre : list (Z * candidate)) (g : Z) (torrent : candidate)
  (post : list (Z * candidate))
  (dry : pyval) (write_location : string) (w w1 : world) :
  download_loop _token _base_url py_repr requests_get open_wb
    pre dry write_location w = (inr tt, w1) ->
  (let out :=
     download_phase _token _base_url py_repr requests_get open_wb
       plan dry write_location w in
   match fst out with
   | inr _ =>
       attempted (snd out)
       = (attempted w
          ++ map (fun kv => VStr (Downloader.torrent_id (snd kv)))
               (PyDict.items plan))%list
       /\ exists printed,
           stdout (snd out) = (printed ++ [PrintStr "Download complete."])%list
   | inl e => is_GGNClientException e = false
   end)
  /\ (forall (torrent0 : candidate) (w0 : world),
         download_one _token _base_url py_repr requests_get open_wb
           torrent0 dry write_location w0
         = match download_body _token _base_url py_repr requests_get open_wb
                   torrent0 dry write_location w0 with
           | (inl e, w2) =>
               if is_GGNClientException e
               then (inr tt,
                     snd (print
                            (PrintDownloadError
                               (VStr (Downloader.torrent_id torrent0)) e) w2))
               else (inl e, w2)
           | (inr _, w2) => (inr tt, w2)
           end)
  /\ match download_body _token _base_url py_repr requests_get open_wb
             torrent dry write_location w1 with
     | (inl e, w2) =>
         if is_GGNClientException e then
           download_phase _token _base_url py_repr requests_get open_wb
             (pre ++ (g, torrent) :: post)%list dry write_location w
           = download_phase _token _base_url py_repr requests_get open_wb
               post dry write_location
               (snd (print
                       (PrintDownloadError
                          (VStr (Downloader.torrent_id torrent)) e) w2))
         else
           download_phase _token _base_url py_repr requests_get open_wb
             (pre ++ (g, torrent) :: post)%list dry write_location w
           = (inl e, w2)
           /\ attempted w2
              = (attempted w
                 ++ map (fun kv => VStr (Downloader.torrent_id (snd kv))) pre
                 ++ [VStr (Downloader.torrent_id torrent)])%list
     | (inr _, w2) =>
         download_phase _token _base_url py_repr requests_get open_wb
           (pre ++ (g, torrent) :: post)%list dry write_location w
         = download_phase _token _base_url py_repr requests_get open_wb
             post dry write_location w2
     end.
Proof.
  intros Hpre. cbv zeta. split; [|split].
  - unfold download_phase. unfold bind.
    pose proof (download_loop_outcome _token _base_url py_repr requests_get
                  open_wb (PyDict.items plan) dry write_location w) as H.
    cbv zeta in H.
    destruct (download_loop _token _base_url py_repr requests_get open_wb
                (PyDict.items plan) dry write_location w) as [[e|[]] w0];
      cbn [fst snd] in H |- *.
    + assumption.
    + unfold print. cbn [fst snd attempted stdout]. split; [assumption|].
      now exists (stdout w0).
  - intros torrent0 w0. unfold download_one, try_except_GGNClientException.
    destruct (download_body _token _base_url py_repr requests_get open_wb
                torrent0 dry write_location w0) as [[e|[]] w2]; [|reflexivity].
    destruct (is_GGNClientException e); reflexivity.
  - pose proof (download_loop_outcome _token _base_url py_repr requests_get
                  open_wb pre dry write_location w) as Hatt.
    cbv zeta in Hatt. rewrite Hpre in Hatt. cbn [fst snd] in Hatt.
    pose proof (download_body_attempted _token _base_url py_repr requests_get
                  open_wb torrent dry write_location w1) as Hbody.
    assert (E : download_phase _token _base_url py_repr requests_get open_wb
                  (pre ++ (g, torrent) :: post)%list dry write_location w
                = match download_one _token _base_url py_repr requests_get
                          open_wb torrent dry write_location w1 with
                  | (inl e, w2) => (inl e, w2)
                  | (inr _, w2) =>
                      download_phase _token _base_url py_repr requests_get
                        open_wb post dry write_location w2
                  end).
    { unfold download_phase, PyDict.items, bind.
      rewrite (download_loop_app _token _base_url py_repr requests_get open_wb
                 pre ((g, torrent) :: post) dry write_location w w1 Hpre).
      cbn [download_loop]. unfold bind.
      destruct (download_one _token _base_url py_repr requests_get open_wb
                  torrent dry write_location w1) as [[e|[]] w2]; reflexivity. }
    rewrite E. clear E.
    unfold download_one, try_except_GGNClientException.
    destruct (download_body _token _base_url py_repr requests_get open_wb
                torrent dry write_location w1) as [[e|[]] w2];
      cbn [snd] in Hbody.
    + destruct (is_GGNClientException e).
      * reflexivity.
      * split; [reflexivity|].
        rewrite Hbody, Hatt. now rewrite <- app_assoc.
    + reflexivity.
Qed.

Lemma download_phase_outcome_witness :
  fst (download_phase "token" Scenarios.base_url Scenarios.repr_stub
         Scenarios.network_down Scenarios.fs_writable
         Scenarios.plan_two (VBool true) "./" initial_world)
  = inl (RequestException "timed out").
Proof.
  pose proof (download_phase_outcome "token" Scenarios.base_url
                Scenarios.repr_stub Scenarios.network_down
                Scenarios.fs_writable Scenarios.plan_two
                [] 20%Z (candidate_of "A" Scenarios.torrent_A)
                [(30%Z, candidate_of "C" Scenarios.torrent_C)]
                (VBool true) "./" initial_world initial_world eq_refl)
    as (_ & _ & H).
  cbn in H. destruct H as [H _].
  exact (f_equal fst H).
Defined.

(** The scenario of the Atari 2600 category: the plan holds group 10 alone,
    two pages are requested and one download is attempted, here as a dry run
    by a client whose user record is cached. *)
Example atari_2600_scenario :
  scan_consoles Scenarios.search_groups_10_11 3 console_list PyDict.empty []
  = Some (inr [(10%Z, candidate_of "E" Scenarios.torrent_E)],
          [("Atari 2600", 1%Z); ("Atari 2600", 2%Z)])
  /\ exists w',
      main Scenarios.search_groups_10_11 "token" Scenarios.base_url
        Scenarios.repr_stub Scenarios.network_down Scenarios.fs_writable
        3 console_list (VBool true) "./" Scenarios.world_with_user
      = Some (inr tt, [("Atari 2600", 1%Z); ("Atari 2600", 2%Z)], w')
      /\ attempted w' = [VStr "E"]
      /\ sent w' = []
      /\ stdout w'
         = [ PrintResult
               (Endpoint "https://gazellegames.net/torrents.php?&request=download&&id=E&authkey=ak&torrent_pass=pk");
             PrintStr "Download complete." ].
Proof.
  split; [reflexivity|].
  eexists. split; [reflexivity|]. repeat split; reflexivity.
Qed.

End DownloadFacts.

(** ** More on filename derivation *)

Module FilenameMore.

Import Filename.

Local Open Scope string_scope.

Lemma filename_of_map_chars (title : string) :
  filename_of title = map_chars translate_char title.
Proof.
  unfold filename_of.
  induction title as [|c r IH]; cbn [translate map_chars]; [reflexivity|].
  rewrite FilenameFacts.table_lookup_file_translator, IH.
  destruct (is_reserved c) eqn:R; [reflexivity|].
  now rewrite FilenameFacts.translate_char_unreserved.
Qed.

Lemma map_chars_app (f : ascii -> ascii) (a b : string) :
  map_chars f (a ++ b) = map_chars f a ++ map_chars f b.
Proof. induction a as [|c r IH]; cbn; [reflexivity | now rewrite IH]. Qed.

Lemma translate_char_not_reserved (c : ascii) :
  is_reserved (translate_char c) = false.
Proof. destruct c as [[] [] [] [] [] [] [] []]; reflexivity. Qed.

Lemma translate_char_idempotent (c : ascii) :
  translate_char (translate_char c) = translate_char c.
Proof. destruct c as [[] [] [] [] [] [] [] []]; reflexivity. Qed.

Lemma translate_char_reserved (c : ascii) :
  is_reserved c = true -> c <> "/"%char -> translate_char c = "_"%char.
Proof.
  destruct c as [[] [] [] [] [] [] [] []]; cbn; intros H Hne;
    try reflexivity; try discriminate; now exfalso.
Qed.

(** X1: a derived filename holds none of the eleven characters of the
    table, in particular no slash and no backslash. *)
Theorem filename_has_no_reserved_character (title : string) (c : ascii) :
  In c (list_ascii_of_string (filename_of title)) -> is_reserved c = false.
Proof.
  rewrite filename_of_map_chars.
  induction title as [|x r IH]; cbn; [tauto|].
  intros [<- | H]; [apply translate_char_not_reserved | now apply IH].
Qed.

Lemma filename_has_no_reserved_character_witness :
  is_reserved "_"%char = false.
Proof.
  apply (filename_has_no_reserved_character "Sonic: The Hedgehog [JP]" "_"%char).
  cbn. tauto.
Defined.

(** X2: filename derivation keeps the length of the title and is
    idempotent: deriving a filename from a derived filename changes
    nothing. *)
Theorem filename_of_length_idempotent (title : string) :
  String.length (filename_of title) = String.length title
  /\ filename_of (filename_of title) = filename_of title.
Proof.
  rewrite !filename_of_map_chars. split.
  - induction title as [|c r IH]; cbn; [reflexivity | now rewrite IH].
  - induction title as [|c r IH]; cbn; [reflexivity|].
    now rewrite translate_char_idempotent, IH.
Qed.

(** X3: filename derivation works character by character, so it commutes
    with concatenation, and two titles that differ only in which reserved
    character other than the slash stands at some position get the same
    filename. *)
Theorem filename_collision (a b : string) (c1 c2 : ascii) :
  is_reserved c1 = true -> c1 <> "/"%char ->
  is_reserved c2 = true -> c2 <> "/"%char ->
  filename_of (a ++ String c1 b) = filename_of (a ++ String c2 b)
  /\ filename_of (a ++ b) = filename_of a ++ filename_of b.
Proof.
  intros R1 N1 R2 N2. rewrite !filename_of_map_chars, !map_chars_app.
  split; [|reflexivity]. cbn [map_chars].
  now rewrite (translate_char_reserved c1), (translate_char_reserved c2).
Qed.

Lemma filename_collision_witness :
  filename_of ("Doom" ++ String ":" " II") = filename_of ("Doom" ++ String "?" " II")
  /\ filename_of ("Doom" ++ " II") = filename_of "Doom" ++ filename_of " II".
Proof.
  apply (filename_collision "Doom" " II" ":" "?");
    try reflexivity; discriminate.
Defined.

End FilenameMore.

(** ** Headers *)

Module HeadersFacts.

Import Client Api.

Local Open Scope string_scope.

Lemma str_lookup_assign_eq {V : Type} (k : string) (v : V) d :
  str_lookup k (str_assign k v d) = Some v.
Proof.
  induction d as [|[k' v'] r IH]; cbn.
  - now rewrite String.eqb_refl.
  - destruct (k =? k') eqn:E; cbn; rewrite ?String.eqb_refl, ?E; auto.
Qed.

Lemma str_lookup_assign_ne {V : Type} (k k' : string) (v : V) d :
  k' <> k -> str_lookup k' (str_assign k v d) = str_lookup k' d.
Proof.
  intros Hne. assert (Hb : (k' =? k) = false) by now apply String.eqb_neq.
  induction d as [|[k0 v0] r IH]; cbn.
  - now rewrite Hb.
  - destruct (k =? k0) eqn:E; cbn.
    + apply String.eqb_eq in E. subst k0. now rewrite Hb.
    + destruct (k' =? k0); auto.
Qed.

Lemma str_lookup_absent {V : Type} (k : string) (d : list (string * V)) :
  ~ In k (map fst d) -> str_lookup k d = None.
Proof.
  induction d as [|[k' v'] r IH]; cbn; [reflexivity|].
  intros H. destruct (k =? k') eqn:E.
  - apply String.eqb_eq in E. subst. tauto.
  - apply IH. tauto.
Qed.

Lemma str_lookup_None_absent {V : Type} (k : string) (d : list (string * V)) :
  str_lookup k d = None -> ~ In k (map fst d).
Proof.
  induction d as [|[k' v'] r IH]; cbn; [tauto|].
  destruct (k =? k') eqn:E; [discriminate|].
  apply String.eqb_neq in E. intros H [H1 | H2]; [congruence | now apply IH].
Qed.

Lemma keys_assign {V : Type} (k : string) (v : V) d :
  map fst (str_assign k v d)
  = if existsb (String.eqb k) (map fst d) then map fst d
    else (map fst d ++ [k])%list.
Proof.
  induction d as [|[k' v'] r IH]; cbn; [reflexivity|].
  destruct (k =? k') eqn:E; cbn.
  - apply String.eqb_eq in E. now subst.
  - rewrite IH. now destruct (existsb (String.eqb k) (map fst r)).
Qed.

Lemma NoDup_assign {V : Type} (k : string) (v : V) d :
  NoDup (map fst d) -> NoDup (map fst (str_assign k v d)).
Proof.
  intros H. rewrite keys_assign.
  destruct (existsb (String.eqb k) (map fst d)) eqn:E; [assumption|].
  apply NoDup_app; [assumption | repeat constructor; cbn; tauto |].
  intros x Hx [Hk | []]. subst x.
  assert (existsb (String.eqb k) (map fst d) = true); [|congruence].
  apply existsb_exists. exists k. split; [assumption | apply String.eqb_refl].
Qed.

(** Later assignments win: a fold of assignments over a dict reads as the
    dict, then the base. *)
Lemma str_lookup_fold_assign (k : string) (extra : list (string * string)) :
  NoDup (map fst extra) ->
  forall base,
    str_lookup k
      (fold_left (fun acc kv => str_assign (fst kv) (snd kv) acc) extra base)
    = match str_lookup k extra with
      | Some v => Some v
      | None => str_lookup k base
      end.
Proof.
  induction extra as [|[k0 v0] r IH]; intros Hnd base; cbn; [reflexivity|].
  inversion Hnd as [|? ? Hnotin Hnd']; subst.
  rewrite IH by assumption.
  destruct (k =? k0) eqn:E.
  - apply String.eqb_eq in E. subst k0.
    rewrite (str_lookup_absent k r Hnotin). apply str_lookup_assign_eq.
  - apply String.eqb_neq in E.
    destruct (str_lookup k r); [reflexivity|].
    now apply str_lookup_assign_ne.
Qed.

Lemma to_dict_lookup (h : Headers) (k : string) :
  NoDup (map fst (extra_headers h)) ->
  str_lookup k (to_dict h)
  = match str_lookup k (extra_headers h) with
    | Some v => Some v
    | None => str_lookup k (default_headers (token h))
    end.
Proof. intros H. unfold to_dict. now apply str_lookup_fold_assign. Qed.

Lemma str_lookup_filter_eq {V : Type} (k : string) (d : list (string * V)) :
  str_lookup k (filter (fun kv => negb (k =? fst kv)) d) = None.
Proof.
  induction d as [|[k' v'] r IH]; cbn; [reflexivity|].
  destruct (k =? k') eqn:E; cbn; [assumption | now rewrite E].
Qed.

Lemma keys_filter {V : Type} (k : string) (d : list (string * V)) :
  map fst (filter (fun kv => negb (k =? fst kv)) d)
  = filter (fun x => negb (k =? x)) (map fst d).
Proof.
  induction d as [|[k' v'] r IH]; cbn; [reflexivity|].
  destruct (k =? k'); cbn; now rewrite IH.
Qed.

Lemma filter_assign_absent {V : Type} (k : string) (v : V) d :
  str_lookup k d = None ->
  filter (fun kv => negb (k =? fst kv)) (str_assign k v d) = d.
Proof.
  induction d as [|[k' v'] r IH]; cbn.
  - now rewrite String.eqb_refl.
  - destruct (k =? k') eqn:E; [discriminate|]. cbn. rewrite E. cbn.
    intros H. now rewrite IH.
Qed.

(** X4: in the dict sent with a request, a caller's extra header overrides
    the default of the same name (the API key included), the three defaults
    are present otherwise, and no other name appears. *)
Theorem to_dict_extra_overrides_default (h : Headers) (k : string) :
  NoDup (map fst (extra_headers h)) ->
  str_lookup k (to_dict h)
  = match str_lookup k (extra_headers h) with
    | Some v => Some v
    | None =>
        if k =? "Accept" then Some "application/json"
        else if k =? "Content-Type" then Some "application/json"
        else if k =? "X-API-Key" then Some (token h)
        else None
    end.
Proof. intros H. now rewrite to_dict_lookup. Qed.

Lemma to_dict_extra_overrides_default_witness :
  str_lookup "X-API-Key"
    (to_dict {| token := "secret"; extra_headers := [("X-API-Key", "other")] |})
  = Some "other".
Proof.
  apply (to_dict_extra_overrides_default
           {| token := "secret"; extra_headers := [("X-API-Key", "other")] |}
           "X-API-Key").
  cbn. repeat constructor. cbn. tauto.
Defined.

(** X5: after [add_header key value] the dict of headers gives [value] for
    [key] and is unchanged for every other name. *)
Theorem add_header_then_to_dict (h : Headers) (key value : string) :
  NoDup (map fst (extra_headers h)) ->
  str_lookup key (to_dict (add_header key value h)) = Some value
  /\ forall k, k <> key ->
       str_lookup k (to_dict (add_header key value h))
       = str_lookup k (to_dict h).
Proof.
  intros H.
  assert (H' : NoDup (map fst (extra_headers (add_header key value h))))
    by now apply NoDup_assign.
  split.
  - rewrite to_dict_lookup by assumption. cbn [add_header extra_headers].
    now rewrite str_lookup_assign_eq.
  - intros k Hne. rewrite !to_dict_lookup by assumption.
    cbn [add_header extra_headers token].
    now rewrite str_lookup_assign_ne.
Qed.

Lemma add_header_then_to_dict_witness :
  str_lookup "User-Agent"
    (to_dict (add_header "User-Agent" "ggn"
                {| token := "secret"; extra_headers := [] |}))
  = Some "ggn".
Proof.
  apply (add_header_then_to_dict
           {| token := "secret"; extra_headers := [] |} "User-Agent" "ggn").
  constructor.
Defined.

(** X6: [remove_header key] takes the caller's header away, so the dict of
    headers falls back to the default of that name if there is one, and
    removing a header just added to a dict that did not have it gives the
    headers back as they were. *)
Theorem remove_header_restores (h : Headers) (key value : string) :
  NoDup (map fst (extra_headers h)) ->
  str_lookup key (to_dict (remove_header key h))
  = str_lookup key (default_headers (token h))
  /\ (str_lookup key (extra_headers h) = None ->
      remove_header key (add_header key value h) = h).
Proof.
  intros H. split.
  - rewrite to_dict_lookup.
    + cbn [remove_header extra_headers token].
      now rewrite str_lookup_filter_eq.
    + cbn [remove_header extra_headers]. rewrite keys_filter.
      now apply NoDup_filter.
  - intros Habs. destruct h as [tok extra]. unfold remove_header, add_header.
    cbn [token extra_headers] in *. now rewrite filter_assign_absent.
Qed.

End HeadersFacts.

(** ** More on the request pipeline *)

Module RequestFacts.

Import Client.

Local Open Scope string_scope.

Lemma append_assoc (a b c : string) : (a ++ b) ++ c = a ++ (b ++ c).
Proof. induction a as [|x r IH]; cbn; [reflexivity | now rewrite IH]. Qed.

Lemma concat_cons2 (sep x y : string) (l : list string) :
  String.concat sep (x :: y :: l) = x ++ sep ++ String.concat sep (y :: l).
Proof. reflexivity. Qed.

(** Joining does not tell a separator inside an item from one between
    items. *)
Lemma concat_split (sep s1 s2 : string) (P Q : list string) :
  String.concat sep (P ++ (s1 ++ sep ++ s2) :: Q)
  = String.concat sep (P ++ s1 :: s2 :: Q).
Proof.
  induction P as [|p P IH].
  - cbn [app]. rewrite concat_cons2.
    destruct Q as [|q Q]; [reflexivity|].
    rewrite !concat_cons2. now rewrite !append_assoc.
  - cbn [app].
    destruct (P ++ (s1 ++ sep ++ s2)%string :: Q)%list as [|y l] eqn:E1;
      [now destruct P|].
    destruct (P ++ s1 :: s2 :: Q)%list as [|y' l'] eqn:E2; [now destruct P|].
    rewrite !concat_cons2. now rewrite IH.
Qed.

Section Environment.

Variable _token : string.
Variable _base_url : string.
Variable py_repr : pyval -> string.
Variable requests_get : list request -> request -> string + response.

Local Abbreviation action_url := (_action_url _base_url py_repr).
Local Abbreviation do_request := (_do_request _token _base_url py_repr requests_get).
Local Abbreviation request_of := (request_for _token _base_url py_repr).

(** A call that gets a response the client takes as a success. *)
Lemma do_request_ok action args override dry w r :
  truthy dry = false ->
  requests_get (sent w) (request_of action args override) = inr r ->
  response_ok r = true ->
  do_request action args override dry w
  = (if header_is (content_type r) "application/json"
     then interpret_json action r
     else inr (Raw r),
     after_request (request_of action args override) w).
Proof.
  intros Hdry Hget Hok. unfold _do_request. rewrite Hdry.
  unfold bind, http_get, raise, ret, lift.
  fold (request_of action args override).
  rewrite Hget, Hok. cbn [negb].
  rewrite ClientFacts.content_type_ne_header_is.
  fold (after_request (request_of action args override) w).
  destruct (header_is (content_type r) "application/json"); cbn [negb];
    [|reflexivity].
  unfold interpret_json, response_json.
  destruct (json_body r) as [json|]; [|reflexivity].
  destruct (getitem (Value json) "status") as [e|st]; [reflexivity|].
  destruct (ne_str st "success"); [reflexivity|].
  destruct (getitem (Value json) "response"); reflexivity.
Qed.

Lemma ne_str_false (v : pyval) (s : string) :
  ne_str v s = false <-> v = VStr s.
Proof.
  destruct v; cbn; try (split; [discriminate | congruence]).
  rewrite negb_false_iff, String.eqb_eq. split; congruence.
Qed.

(** What the parsed body must be for the call to return a value. *)
Lemma interpret_json_value action r v :
  interpret_json action r = inr (Value v)
  <-> exists d, json_body r = Some (VDict d)
                /\ str_lookup "status" d = Some (VStr "success")
                /\ str_lookup "response" d = Some v.
Proof.
  unfold interpret_json. split.
  - destruct (json_body r) as [[| | | | |d]|]; cbn; try discriminate.
    destruct (str_lookup "status" d) as [st|] eqn:Hs; [|discriminate].
    destruct (ne_str st "success") eqn:Hne; [discriminate|].
    apply ne_str_false in Hne. subst st.
    destruct (str_lookup "response" d) as [v'|] eqn:Hr; [|discriminate].
    intros H. injection H as <-. now exists d.
  - intros (d & -> & Hs & Hr). cbn. now rewrite Hs, Hr.
Qed.

(** What the parsed body must be for the call to report an API failure. *)
Lemma interpret_json_failure action r a j :
  interpret_json action r = inl (GGNClientException a (ApiFailure j))
  <-> a = action
      /\ exists d st, json_body r = Some j /\ j = VDict d
                      /\ str_lookup "status" d = Some st
                      /\ st <> VStr "success".
Proof.
  unfold interpret_json. split.
  - destruct (json_body r) as [[| | | | |d]|]; cbn; try discriminate.
    destruct (str_lookup "status" d) as [st|] eqn:Hs; [|discriminate].
    destruct (ne_str st "success") eqn:Hne.
    + intros H. injection H as <- <-. split; [reflexivity|].
      exists d, st. repeat split; auto.
      intros ->. cbn in Hne. discriminate.
    + destruct (str_lookup "response" d); discriminate.
  - intros (-> & d & st & -> & -> & Hs & Hne). cbn. rewrite Hs.
    destruct (ne_str st "success") eqn:E; [reflexivity|].
    apply ne_str_false in E. contradiction.
Qed.

End Environment.

(** X7: a response with a status from 400 to 599 makes the call raise a
    [GGNClientException] that carries the action, the status code and the
    body text, whatever the Content-Type and the body; the request has been
    sent and nothing else has changed. *)
Theorem do_request_http_failure (_token _base_url : string)
  (py_repr : pyval -> string)
  (requests_get : list request -> request -> string + response)
  (action : option string) (args : option (list (string * pyval)))
  (override_url : option string) (dry : pyval) (w : world) (r : response) :
  truthy dry = false ->
  requests_get (sent w) (request_for _token _base_url py_repr action args override_url)
  = inr r ->
  (400 <= status_code r < 600)%Z ->
  _do_request _token _base_url py_repr requests_get action args override_url dry w
  = (inl (GGNClientException action (HttpFailure (status_code r) (text r))),
     after_request (request_for _token _base_url py_repr action args override_url) w).
Proof.
  intros Hdry Hget Hst. unfold _do_request. rewrite Hdry.
  unfold bind, http_get, raise.
  fold (request_for _token _base_url py_repr action args override_url).
  rewrite Hget.
  assert (Hok : response_ok r = false).
  { unfold response_ok.
    replace (400 <=? status_code r)%Z with true by (symmetry; apply Z.leb_le; lia).
    replace (status_code r <? 600)%Z with true by (symmetry; apply Z.ltb_lt; lia).
    reflexivity. }
  rewrite Hok. reflexivity.
Qed.

Lemma do_request_http_failure_witness :
  _do_request "token" Scenarios.base_url Scenarios.repr_stub
    Scenarios.network_forbidden (Some "quick_user") None None (VBool false)
    initial_world
  = (inl (GGNClientException (Some "quick_user") (HttpFailure 403 "forbidden")),
     after_request
       (request_for "token" Scenarios.base_url Scenarios.repr_stub
          (Some "quick_user") None None) initial_world).
Proof.
  apply (do_request_http_failure "token" Scenarios.base_url Scenarios.repr_stub
           Scenarios.network_forbidden (Some "quick_user") None None
           (VBool false) initial_world
           (mkResponse 403 "forbidden" "" (Some "text/html") None)).
  - reflexivity.
  - reflexivity.
  - cbn. lia.
Defined.

(** X8: every status outside 400 to 599 counts as a success, a 3xx or 1xx
    status included: the response is then interpreted by its Content-Type
    alone, as JSON when it is [application/json] and as the raw response
    otherwise. *)
Theorem do_request_other_status_is_success (_token _base_url : string)
  (py_repr : pyval -> string)
  (requests_get : list request -> request -> string + response)
  (action : option string) (args : option (list (string * pyval)))
  (override_url : option string) (dry : pyval) (w : world) (r : response) :
  truthy dry = false ->
  requests_get (sent w) (request_for _token _base_url py_repr action args override_url)
  = inr r ->
  (status_code r < 400 \/ 600 <= status_code r)%Z ->
  _do_request _token _base_url py_repr requests_get action args override_url dry w
  = (if header_is (content_type r) "application/json"
     then interpret_json action r
     else inr (Raw r),
     after_request (request_for _token _base_url py_repr action args override_url) w).
Proof.
  intros Hdry Hget Hst. apply do_request_ok; try assumption.
  unfold response_ok. destruct Hst as [Hlt | Hge].
  - replace (400 <=? status_code r)%Z with false
      by (symmetry; apply Z.leb_gt; lia). reflexivity.
  - replace (status_code r <? 600)%Z with false
      by (symmetry; apply Z.ltb_ge; lia).
    now rewrite andb_false_r.
Qed.

Lemma do_request_other_status_is_success_witness :
  _do_request "token" Scenarios.base_url Scenarios.repr_stub
    Examples.network_not_modified (Some "quick_user") None None (VBool false)
    initial_world
  = (inr (Raw Examples.not_modified),
     after_request
       (request_for "token" Scenarios.base_url Scenarios.repr_stub
          (Some "quick_user") None None) initial_world).
Proof.
  apply (do_request_other_status_is_success "token" Scenarios.base_url
           Scenarios.repr_stub Examples.network_not_modified
           (Some "quick_user") None None (VBool false) initial_world
           Examples.not_modified).
  - reflexivity.
  - reflexivity.
  - cbn. lia.
Defined.

(** X9: for a response taken as JSON, the call returns a value exactly when
    the parsed body is a dict whose [status] is the string [success] and
    that has a [response] key, and then returns the value under that key;
    it reports an API failure exactly when the body is a dict with a
    [status] key of any other value.  A body that does not parse, is not a
    dict or lacks the key raises an exception of another kind. *)
Theorem do_request_json_envelope (_token _base_url : string)
  (py_repr : pyval -> string)
  (requests_get : list request -> request -> string + response)
  (action : option string) (args : option (list (string * pyval)))
  (override_url : option string) (dry : pyval) (w : world) (r : response) :
  truthy dry = false ->
  requests_get (sent w) (request_for _token _base_url py_repr action args override_url)
  = inr r ->
  response_ok r = true ->
  content_type r = Some "application/json" ->
  let out :=
    _do_request _token _base_url py_repr requests_get
      action args override_url dry w in
  (forall v,
      fst out = inr (Value v)
      <-> exists d, json_body r = Some (VDict d)
                    /\ str_lookup "status" d = Some (VStr "success")
                    /\ str_lookup "response" d = Some v)
  /\ (forall a j,
         fst out = inl (GGNClientException a (ApiFailure j))
         <-> a = action
             /\ exists d st, json_body r = Some j /\ j = VDict d
                             /\ str_lookup "status" d = Some st
                             /\ st <> VStr "success")
  /\ (forall url, fst out <> inr (Endpoint url))
  /\ (forall r', fst out <> inr (Raw r')).
Proof.
  intros Hdry Hget Hok Hct out. subst out.
  rewrite (do_request_ok _token _base_url py_repr requests_get
             action args override_url dry w r Hdry Hget Hok).
  apply ClientFacts.header_is_spec in Hct. rewrite Hct. cbn [fst].
  split; [|split; [|split]].
  - intros v. apply interpret_json_value.
  - intros a j. apply interpret_json_failure.
  - intros url H. unfold interpret_json in H.
    destruct (json_body r) as [j|]; [|discriminate].
    destruct (getitem (Value j) "status") as [e|st]; [discriminate|].
    destruct (ne_str st "success"); [discriminate|].
    destruct (getitem (Value j) "response"); discriminate.
  - intros r' H. unfold interpret_json in H.
    destruct (json_body r) as [j|]; [|discriminate].
    destruct (getitem (Value j) "status") as [e|st]; [discriminate|].
    destruct (ne_str st "success"); [discriminate|].
    destruct (getitem (Value j) "response"); discriminate.
Qed.

Lemma do_request_json_envelope_witness :
  fst (_do_request "token" Scenarios.base_url Scenarios.repr_stub
         Examples.network_json (Some "quick_user") None None (VBool false)
         initial_world)
  = inr (Value (VInt 7)).
Proof.
  apply (do_request_json_envelope "token" Scenarios.base_url
           Scenarios.repr_stub Examples.network_json
           (Some "quick_user") None None (VBool false) initial_world
           Examples.json_success eq_refl eq_refl eq_refl eq_refl).
  exists [("status", VStr "success"); ("response", VInt 7)].
  repeat split; reflexivity.
Defined.

(** X10: parameter values are put into the URL as they are: a string value
    that holds [&key=value] gives the same URL as a further parameter of
    that name and value, so the URL does not determine the parameters. *)
Theorem action_url_does_not_escape (_base_url : string)
  (py_repr : pyval -> string) (action : option string)
  (pre post : list (string * pyval)) (k1 v1 k2 v2 : string)
  (override_url : option string) :
  _action_url _base_url py_repr action
    (Some (pre ++ (k1, VStr (v1 ++ "&" ++ k2 ++ "=" ++ v2)%string) :: post)%list)
    override_url
  = _action_url _base_url py_repr action
      (Some (pre ++ (k1, VStr v1) :: (k2, VStr v2) :: post)%list) override_url.
Proof.
  unfold _action_url.
  destruct action as [a|]; [|reflexivity].
  destruct (negb (str_truthy (Some a))); [reflexivity|].
  destruct (pre ++ (k1, VStr (v1 ++ "&" ++ k2 ++ "=" ++ v2)%string) :: post)%list
    as [|x l] eqn:E1; [now destruct pre|].
  destruct (pre ++ (k1, VStr v1) :: (k2, VStr v2) :: post)%list
    as [|x' l'] eqn:E2; [now destruct pre|].
  rewrite <- E1, <- E2. do 4 f_equal.
  rewrite !filter_app, !map_app. cbn [filter map snd fst is_None negb py_str].
  rewrite <- concat_split. do 3 f_equal.
  now rewrite !append_assoc.
Qed.

End RequestFacts.

(** ** More on downloads *)

Module DownloadMore.

Import Client Downloader.

Local Open Scope string_scope.

Section Environment.

Variable _token : string.
Variable _base_url : string.
Variable py_repr : pyval -> string.
Variable requests_get : list request -> request -> string + response.
Variable open_wb : list fs_event -> string -> bool.

Local Abbreviation action_url := (_action_url _base_url py_repr).
Local Abbreviation do_request := (_do_request _token _base_url py_repr requests_get).
Local Abbreviation request_of := (request_for _token _base_url py_repr).
Local Abbreviation download :=
  (download_torrent _token _base_url py_repr requests_get open_wb).
Local Abbreviation fill_cache :=
  (ensure_user _token _base_url py_repr requests_get).

(** The parameters of the download request. *)
Local Abbreviation download_args torrent_id authkey passkey :=
  (Some [ ("id", torrent_id); ("authkey", authkey); ("torrent_pass", passkey) ]).

(** [download_torrent], step by step. *)
Lemma download_torrent_eq torrent_id write_location dry w :
  download torrent_id write_location dry w
  = if (is_None dry || is_False dry)
       && match write_location with None => true | Some _ => false end
    then (inl (PyException "write_location must be set if dry is False"), w)
    else
      match fill_cache w with
      | (inl e, w1) => (inl e, w1)
      | (inr _, w1) =>
          match getitem (_user w1) "authkey" with
          | inl e => (inl e, w1)
          | inr authkey =>
              match getitem (_user w1) "passkey" with
              | inl e => (inl e, w1)
              | inr passkey =>
                  match do_request (Some "download")
                          (download_args torrent_id authkey passkey)
                          (Some download_url) dry w1 with
                  | (inl e, w2) => (inl e, w2)
                  | (inr resp, w2) =>
                      if truthy dry then
                        (inr VNone, snd (print (PrintResult resp) w2))
                      else
                        match write_location with
                        | None => (inl TypeError, w2)
                        | Some path =>
                            if open_wb (fs w2) path then
                              let w3 := snd (record_fs (Opened path) w2) in
                              match content_of resp with
                              | inl e => (inl e, w3)
                              | inr bytes =>
                                  (inr VNone,
                                   snd (print
                                          (PrintStr ("Torrent downloaded to " ++ path))
                                          (snd (record_fs (Written path bytes) w3))))
                              end
                            else (inl (OSError path), w2)
                        end
                  end
              end
          end
      end.
Proof.
  unfold download_torrent.
  destruct ((is_None dry || is_False dry)
            && match write_location with None => true | Some _ => false end);
    [reflexivity|].
  unfold bind at 1.
  destruct (fill_cache w) as [[e|[]] w1]; [reflexivity|].
  unfold bind at 1. unfold get_user. cbn beta iota.
  unfold bind at 1. unfold lift at 1.
  destruct (getitem (_user w1) "authkey") as [e|authkey]; [reflexivity|].
  unfold bind at 1. unfold lift at 1.
  destruct (getitem (_user w1) "passkey") as [e|passkey]; [reflexivity|].
  unfold bind at 1.
  destruct (do_request (Some "download")
              (download_args torrent_id authkey passkey)
              (Some download_url) dry w1) as [[e|resp] w2]; [reflexivity|].
  destruct (truthy dry); [reflexivity|].
  unfold bind, open_for_write, raise, record_fs, lift, print, ret.
  destruct write_location as [path|]; [|reflexivity].
  destruct (open_wb (fs w2) path); [|reflexivity].
  cbn. destruct (content_of resp); reflexivity.
Qed.

(** A filled cache is left alone. *)
Lemma fill_cache_cached w :
  is_None_result (_user w) = false -> fill_cache w = (inr tt, w).
Proof. intros H. unfold ensure_user, bind, get_user. now rewrite H. Qed.

Lemma getitem_not_None (x : result) (k : string) (v : pyval) :
  getitem x k = inr v -> is_None_result x = false.
Proof. destruct x as [| |[]]; cbn; congruence. Qed.

(** A call answered with a status from 400 to 599. *)
Lemma do_request_refused action args override dry w r :
  truthy dry = false ->
  requests_get (sent w) (request_of action args override) = inr r ->
  response_ok r = false ->
  do_request action args override dry w
  = (inl (GGNClientException action (HttpFailure (status_code r) (text r))),
     after_request (request_of action args override) w).
Proof.
  intros Hdry Hget Hok. unfold _do_request. rewrite Hdry.
  unfold bind, http_get, raise. fold (request_of action args override).
  now rewrite Hget, Hok.
Qed.

(** A dry-run iteration of the download loop with the user record cached. *)
Lemma download_one_dry_cached torrent dry write_location w authkey passkey :
  truthy dry = true ->
  getitem (_user w) "authkey" = inr authkey ->
  getitem (_user w) "passkey" = inr passkey ->
  download_one _token _base_url py_repr requests_get open_wb
    torrent dry write_location w
  = (inr tt,
     {| _user := _user w; sent := sent w; fs := fs w;
        stdout :=
          stdout w
          ++ [PrintResult
                (Endpoint
                   (action_url (Some "download")
                      (download_args (VStr (Downloader.torrent_id torrent))
                         authkey passkey)
                      (Some download_url)))];
        attempted := attempted w ++ [VStr (Downloader.torrent_id torrent)] |}).
Proof.
  intros Hdry Ha Hp.
  unfold download_one, try_except_GGNClientException, download_body.
  unfold bind at 1. unfold record_attempt. cbn beta iota.
  unfold bind at 1.
  rewrite download_torrent_eq.
  rewrite (DownloadFacts.truthy_not_None_nor_False dry Hdry). cbn [andb].
  rewrite fill_cache_cached by (cbn [_user]; eapply getitem_not_None; eassumption).
  cbn [_user]. rewrite Ha, Hp.
  rewrite ClientFacts.do_request_dry by assumption.
  rewrite Hdry. reflexivity.
Qed.

Lemma download_loop_dry_cached items dry write_location authkey passkey :
  truthy dry = true ->
  forall w,
    getitem (_user w) "authkey" = inr authkey ->
    getitem (_user w) "passkey" = inr passkey ->
    download_loop _token _base_url py_repr requests_get open_wb
      items dry write_location w
    = (inr tt,
       {| _user := _user w; sent := sent w; fs := fs w;
          stdout :=
            stdout w
            ++ map (fun kv =>
                      PrintResult
                        (Endpoint
                           (action_url (Some "download")
                              (download_args
                                 (VStr (Downloader.torrent_id (snd kv)))
                                 authkey passkey)
                              (Some download_url)))) items;
          attempted :=
            attempted w
            ++ map (fun kv => VStr (Downloader.torrent_id (snd kv))) items |}).
Proof.
  intros Hdry. induction items as [|[g torrent] rest IH]; intros w Ha Hp.
  - cbn. rewrite !app_nil_r. now destruct w.
  - cbn [download_loop]. unfold bind.
    rewrite (download_one_dry_cached torrent dry write_location w authkey passkey)
      by assumption.
    rewrite IH by (cbn [_user]; assumption).
    cbn [_user sent fs stdout attempted map snd].
    now rewrite <- !app_assoc.
Qed.

End Environment.

(** X11: once the user record is cached, [download_torrent] never fetches
    it again and never changes it: the cache is the same after the call, and
    the call sends nothing or the one download request. *)
Theorem user_cache_never_refreshed (_token _base_url : string)
  (py_repr : pyval -> string)
  (requests_get : list request -> request -> string + response)
  (open_wb : list fs_event -> string -> bool)
  (torrent_id : pyval) (write_location : option string) (dry : pyval)
  (w : world) :
  is_None_result (_user w) = false ->
  let out :=
    download_torrent _token _base_url py_repr requests_get open_wb
      torrent_id write_location dry w in
  _user (snd out) = _user w
  /\ (sent (snd out) = sent w
      \/ exists authkey passkey,
          sent (snd out)
          = (sent w
             ++ [request_for _token _base_url py_repr (Some "download")
                   (Some [ ("id", torrent_id); ("authkey", authkey);
                           ("torrent_pass", passkey) ])
                   (Some download_url)])%list).
Proof.
  intros Hc out. subst out. rewrite download_torrent_eq.
  destruct ((is_None dry || is_False dry)
            && match write_location with None => true | Some _ => false end);
    [cbn; auto|].
  rewrite fill_cache_cached by assumption.
  destruct (getitem (_user w) "authkey") as [e|authkey]; [cbn; auto|].
  destruct (getitem (_user w) "passkey") as [e|passkey]; [cbn; auto|].
  destruct (truthy dry) eqn:Hdry.
  - rewrite ClientFacts.do_request_dry by assumption. cbn. auto.
  - pose proof (ClientFacts.do_request_sends_one _token _base_url py_repr
                  requests_get (Some "download")
                  (Some [("id", torrent_id); ("authkey", authkey);
                         ("torrent_pass", passkey)])
                  (Some download_url) dry w Hdry) as Hsnd.
    destruct (_do_request _token _base_url py_repr requests_get
                (Some "download")
                (Some [("id", torrent_id); ("authkey", authkey);
                       ("torrent_pass", passkey)])
                (Some download_url) dry w) as [[e|resp] w2];
      cbn [snd] in Hsnd; subst w2.
    + cbn. split; [reflexivity|]. right. now exists authkey, passkey.
    + assert (Hgoal : forall x : (exc + pyval) * world,
                 _user (snd x) = _user w ->
                 sent (snd x)
                 = sent (after_request
                           (request_for _token _base_url py_repr
                              (Some "download")
                              (Some [("id", torrent_id); ("authkey", authkey);
                                     ("torrent_pass", passkey)])
                              (Some download_url)) w) ->
                 _user (snd x) = _user w
                 /\ (sent (snd x) = sent w
                     \/ exists a p,
                         sent (snd x)
                         = (sent w
                            ++ [request_for _token _base_url py_repr
                                  (Some "download")
                                  (Some [("id", torrent_id); ("authkey", a);
                                         ("torrent_pass", p)])
                                  (Some download_url)])%list)).
      { intros x Hu Hs. split; [assumption|]. right.
        exists authkey, passkey. exact Hs. }
      destruct write_location as [path|]; [|now apply Hgoal].
      destruct (open_wb _ path); [|now apply Hgoal].
      cbv zeta. destruct (content_of resp); now apply Hgoal.
Qed.

Lemma user_cache_never_refreshed_witness :
  _user (snd (download_torrent "token" Scenarios.base_url Scenarios.repr_stub
                Examples.network_torrent Scenarios.fs_writable
                (VInt 5) (Some "./a.torrent") (VBool false)
                Scenarios.world_with_user))
  = _user Scenarios.world_with_user.
Proof.
  apply (user_cache_never_refreshed "token" Scenarios.base_url
           Scenarios.repr_stub Examples.network_torrent Scenarios.fs_writable
           (VInt 5) (Some "./a.torrent") (VBool false)
           Scenarios.world_with_user eq_refl).
Defined.

(** X12: a real download with the user record cached, answered by a
    response that is not an error and not JSON, with a destination that can
    be opened: the one download request is sent, the destination is opened
    and the whole response content written to it, the confirmation is
    printed and the call returns [None]. *)
Theorem download_writes_response_content (_token _base_url : string)
  (py_repr : pyval -> string)
  (requests_get : list request -> request -> string + response)
  (open_wb : list fs_event -> string -> bool)
  (torrent_id : pyval) (path : string) (dry : pyval) (w : world)
  (authkey passkey : pyval) (r : response) :
  truthy dry = false ->
  getitem (_user w) "authkey" = inr authkey ->
  getitem (_user w) "passkey" = inr passkey ->
  requests_get (sent w)
    (request_for _token _base_url py_repr (Some "download")
       (Some [ ("id", torrent_id); ("authkey", authkey);
               ("torrent_pass", passkey) ])
       (Some download_url)) = inr r ->
  response_ok r = true ->
  header_is (content_type r) "application/json" = false ->
  open_wb (fs w) path = true ->
  download_torrent _token _base_url py_repr requests_get open_wb
    torrent_id (Some path) dry w
  = (inr VNone,
     {| _user := _user w;
        sent :=
          sent w
          ++ [request_for _token _base_url py_repr (Some "download")
                (Some [ ("id", torrent_id); ("authkey", authkey);
                        ("torrent_pass", passkey) ])
                (Some download_url)];
        fs := fs w ++ [Opened path; Written path (content r)];
        stdout := stdout w ++ [PrintStr ("Torrent downloaded to " ++ path)];
        attempted := attempted w |}).
Proof.
  intros Hdry Ha Hp Hget Hok Hct Hopen. rewrite download_torrent_eq.
  rewrite andb_false_r.
  rewrite fill_cache_cached by (eapply getitem_not_None; eassumption).
  rewrite Ha, Hp.
  rewrite (RequestFacts.do_request_ok _token _base_url py_repr requests_get
             _ _ _ dry w r Hdry Hget Hok).
  rewrite Hct, Hdry. cbn [after_request fs]. rewrite Hopen.
  cbn. now rewrite <- app_assoc.
Qed.

Lemma download_writes_response_content_witness :
  fs (snd (download_torrent "token" Scenarios.base_url Scenarios.repr_stub
             Examples.network_torrent Scenarios.fs_writable
             (VInt 5) (Some "./a.torrent") (VBool false)
             Scenarios.world_with_user))
  = [Opened "./a.torrent"; Written "./a.torrent" "d8:announce"].
Proof.
  rewrite (download_writes_response_content "token" Scenarios.base_url
             Scenarios.repr_stub Examples.network_torrent Scenarios.fs_writable
             (VInt 5) "./a.torrent" (VBool false) Scenarios.world_with_user
             (VStr "ak") (VStr "pk") Examples.torrent_file
             eq_refl eq_refl eq_refl eq_refl eq_refl eq_refl eq_refl).
  reflexivity.
Defined.

(** X13: when the download request is answered by a successful JSON
    envelope instead of a file, the destination has already been opened for
    writing when the call fails: it raises [AttributeError], writes nothing
    and prints nothing, and the opened file is left behind. *)
Theorem download_json_answer_leaves_opened_file (_token _base_url : string)
  (py_repr : pyval -> string)
  (requests_get : list request -> request -> string + response)
  (open_wb : list fs_event -> string -> bool)
  (torrent_id : pyval) (path : string) (dry : pyval) (w : world)
  (authkey passkey v : pyval) (r : response) :
  truthy dry = false ->
  getitem (_user w) "authkey" = inr authkey ->
  getitem (_user w) "passkey" = inr passkey ->
  requests_get (sent w)
    (request_for _token _base_url py_repr (Some "download")
       (Some [ ("id", torrent_id); ("authkey", authkey);
               ("torrent_pass", passkey) ])
       (Some download_url)) = inr r ->
  response_ok r = true ->
  content_type r = Some "application/json" ->
  interpret_json (Some "download") r = inr (Value v) ->
  open_wb (fs w) path = true ->
  let out :=
    download_torrent _token _base_url py_repr requests_get open_wb
      torrent_id (Some path) dry w in
  fst out = inl AttributeError
  /\ fs (snd out) = (fs w ++ [Opened path])%list
  /\ stdout (snd out) = stdout w.
Proof.
  intros Hdry Ha Hp Hget Hok Hct Hjson Hopen out. subst out.
  rewrite download_torrent_eq. rewrite andb_false_r.
  rewrite fill_cache_cached by (eapply getitem_not_None; eassumption).
  rewrite Ha, Hp.
  rewrite (RequestFacts.do_request_ok _token _base_url py_repr requests_get
             _ _ _ dry w r Hdry Hget Hok).
  apply ClientFacts.header_is_spec in Hct. rewrite Hct, Hjson, Hdry.
  cbn [after_request fs]. rewrite Hopen. cbn. auto.
Qed.

Lemma download_json_answer_leaves_opened_file_witness :
  fst (download_torrent "token" Scenarios.base_url Scenarios.repr_stub
         Examples.network_json Scenarios.fs_writable
         (VInt 5) (Some "./a.torrent") (VBool false)
         Scenarios.world_with_user)
  = inl AttributeError.
Proof.
  apply (download_json_answer_leaves_opened_file "token" Scenarios.base_url
           Scenarios.repr_stub Examples.network_json Scenarios.fs_writable
           (VInt 5) "./a.torrent" (VBool false) Scenarios.world_with_user
           (VStr "ak") (VStr "pk") (VInt 7) Examples.json_success
           eq_refl eq_refl eq_refl eq_refl eq_refl eq_refl eq_refl eq_refl).
Defined.

(** X14: when the user record is not cached and the user-info request is
    refused with a status from 400 to 599, the download fails with that
    [GGNClientException] before anything is built or printed, dry run or
    not; only the user-info request has been sent and the cache is still
    empty, so the next call asks again. *)
Theorem user_fetch_failure_propagates (_token _base_url : string)
  (py_repr : pyval -> string)
  (requests_get : list request -> request -> string + response)
  (open_wb : list fs_event -> string -> bool)
  (torrent_id : pyval) (write_location : option string) (dry : pyval)
  (w : world) (r : response) :
  is_None_result (_user w) = true ->
  truthy dry = true \/ write_location <> None ->
  requests_get (sent w)
    (request_for _token _base_url py_repr (Some "quick_user") None None)
  = inr r ->
  response_ok r = false ->
  download_torrent _token _base_url py_repr requests_get open_wb
    torrent_id write_location dry w
  = (inl (GGNClientException (Some "quick_user")
            (HttpFailure (status_code r) (text r))),
     after_request
       (request_for _token _base_url py_repr (Some "quick_user") None None) w)
  /\ is_None_result
       (_user (after_request
                 (request_for _token _base_url py_repr (Some "quick_user")
                    None None) w)) = true.
Proof.
  intros Hc Hpre Hget Hok. split; [|exact Hc].
  rewrite download_torrent_eq.
  replace ((is_None dry || is_False dry)
           && match write_location with None => true | Some _ => false end)
    with false.
  2:{ destruct Hpre as [Hdry | Hloc].
      - now rewrite (DownloadFacts.truthy_not_None_nor_False dry Hdry).
      - destruct write_location; [now rewrite andb_false_r | contradiction]. }
  unfold ensure_user, bind, get_user. rewrite Hc. unfold quick_user.
  now rewrite (do_request_refused _token _base_url py_repr requests_get
                 _ _ _ (VBool false) w r eq_refl Hget Hok).
Qed.

Lemma user_fetch_failure_propagates_witness :
  download_torrent "token" Scenarios.base_url Scenarios.repr_stub
    Scenarios.network_forbidden Scenarios.fs_writable
    (VInt 5) None (VBool true) initial_world
  = (inl (GGNClientException (Some "quick_user") (HttpFailure 403 "forbidden")),
     after_request
       (request_for "token" Scenarios.base_url Scenarios.repr_stub
          (Some "quick_user") None None) initial_world)
  /\ is_None_result
       (_user (after_request
                 (request_for "token" Scenarios.base_url Scenarios.repr_stub
                    (Some "quick_user") None None) initial_world)) = true.
Proof.
  apply (user_fetch_failure_propagates "token" Scenarios.base_url
           Scenarios.repr_stub Scenarios.network_forbidden
           Scenarios.fs_writable (VInt 5) None (VBool true) initial_world
           (mkResponse 403 "forbidden" "" (Some "text/html") None)).
  - reflexivity.
  - left. reflexivity.
  - reflexivity.
  - reflexivity.
Defined.

(** X15: when the user-info request is answered by a response that is not
    an error and not JSON, the response object itself is cached as the user
    record.  The download then fails with [TypeError], and so does every
    later download of that client, without sending anything: the cache is
    never refreshed. *)
Theorem non_json_user_answer_is_cached (_token _base_url : string)
  (py_repr : pyval -> string)
  (requests_get : list request -> request -> string + response)
  (open_wb : list fs_event -> string -> bool)
  (torrent_id : pyval) (write_location : option string) (dry : pyval)
  (w : world) (r : response) :
  is_None_result (_user w) = true ->
  truthy dry = true \/ write_location <> None ->
  requests_get (sent w)
    (request_for _token _base_url py_repr (Some "quick_user") None None)
  = inr r ->
  response_ok r = true ->
  header_is (content_type r) "application/json" = false ->
  let out :=
    download_torrent _token _base_url py_repr requests_get open_wb
      torrent_id write_location dry w in
  fst out = inl TypeError
  /\ _user (snd out) = Raw r
  /\ forall torrent_id' (write_location' : option string) dry',
      truthy dry' = true \/ write_location' <> None ->
      download_torrent _token _base_url py_repr requests_get open_wb
        torrent_id' write_location' dry' (snd out)
      = (inl TypeError, snd out).
Proof.
  intros Hc Hpre Hget Hok Hct out. subst out.
  assert (Hcheck : forall dry' (write_location' : option string),
             truthy dry' = true \/ write_location' <> None ->
             (is_None dry' || is_False dry')
             && match write_location' with None => true | Some _ => false end
             = false).
  { intros dry' loc' [Hdry | Hloc].
    - now rewrite (DownloadFacts.truthy_not_None_nor_False dry' Hdry).
    - destruct loc'; [now rewrite andb_false_r | contradiction]. }
  assert (Hcond : (is_None dry || is_False dry)
                  && match write_location with None => true | Some _ => false end
                  = false).
  { destruct Hpre as [Hdry | Hloc].
    - now rewrite (DownloadFacts.truthy_not_None_nor_False dry Hdry).
    - destruct write_location; [now rewrite andb_false_r | contradiction]. }
  assert (E : download_torrent _token _base_url py_repr requests_get open_wb
                torrent_id write_location dry w
              = (inl TypeError,
                 snd (set_user (Raw r)
                        (after_request
                           (request_for _token _base_url py_repr
                              (Some "quick_user") None None) w)))).
  { rewrite download_torrent_eq, Hcond.
    unfold ensure_user, bind, get_user. rewrite Hc. unfold quick_user.
    rewrite (RequestFacts.do_request_ok _token _base_url py_repr requests_get
               _ _ _ (VBool false) w r eq_refl Hget Hok).
    rewrite Hct. reflexivity. }
  rewrite E. cbn [fst snd]. split; [reflexivity|]. split; [reflexivity|].
  intros tid' loc' dry' Hpre'.
  rewrite download_torrent_eq, (Hcheck dry' loc' Hpre').
  rewrite fill_cache_cached by reflexivity. reflexivity.
Qed.

Lemma non_json_user_answer_is_cached_witness :
  fst (download_torrent "token" Scenarios.base_url Scenarios.repr_stub
         Examples.network_torrent Scenarios.fs_writable
         (VInt 5) None (VBool true) initial_world)
  = inl TypeError.
Proof.
  apply (non_json_user_answer_is_cached "token" Scenarios.base_url
           Scenarios.repr_stub Examples.network_torrent Scenarios.fs_writable
           (VInt 5) None (VBool true) initial_world Examples.torrent_file).
  - reflexivity.
  - left. reflexivity.
  - reflexivity.
  - reflexivity.
  - reflexivity.
Defined.

(** X16: a dry run of the whole download phase by a client whose cached
    user record has both keys completes without any network or file system
    activity: it prints one download URL per group of the plan, in the order
    of the plan, then the completion line. *)
Theorem dry_run_plan_is_offline (_token _base_url : string)
  (py_repr : pyval -> string)
  (requests_get : list request -> request -> string + response)
  (open_wb : list fs_event -> string -> bool)
  (plan : PyDict.t candidate) (dry : pyval) (write_location : string)
  (w : world) (authkey passkey : pyval) :
  truthy dry = true ->
  getitem (_user w) "authkey" = inr authkey ->
  getitem (_user w) "passkey" = inr passkey ->
  download_phase _token _base_url py_repr requests_get open_wb
    plan dry write_location w
  = (inr tt,
     {| _user := _user w; sent := sent w; fs := fs w;
        stdout :=
          stdout w
          ++ map (fun kv =>
                    PrintResult
                      (Endpoint
                         (_action_url _base_url py_repr (Some "download")
                            (Some [ ("id", VStr (Downloader.torrent_id (snd kv)));
                                    ("authkey", authkey);
                                    ("torrent_pass", passkey) ])
                            (Some download_url)))) (PyDict.items plan)
          ++ [PrintStr "Download complete."];
        attempted :=
          attempted w
          ++ map (fun kv => VStr (Downloader.torrent_id (snd kv)))
               (PyDict.items plan) |}).
Proof.
  intros Hdry Ha Hp. unfold download_phase, bind.
  rewrite (download_loop_dry_cached _token _base_url py_repr requests_get
             open_wb (PyDict.items plan) dry write_location authkey passkey
             Hdry w Ha Hp).
  unfold print. cbn [_user sent fs stdout attempted].
  now rewrite <- app_assoc.
Qed.

Lemma dry_run_plan_is_offline_witness :
  sent (snd (download_phase "token" Scenarios.base_url Scenarios.repr_stub
               Scenarios.network_down Scenarios.fs_writable
               Scenarios.plan_two (VBool true) "./" Scenarios.world_with_user))
  = [].
Proof.
  rewrite (dry_run_plan_is_offline "token" Scenarios.base_url
             Scenarios.repr_stub Scenarios.network_down Scenarios.fs_writable
             Scenarios.plan_two (VBool true) "./" Scenarios.world_with_user
             (VStr "ak") (VStr "pk") eq_refl eq_refl eq_refl).
  reflexivity.
Defined.

(** X17: a download that is not a dry run and has no destination never
    succeeds and never touches the file system.  When [dry] is [None] or
    [False] it fails before anything else happens; for any other falsy
    value of [dry] the check does not apply and the failure comes later. *)
Theorem real_download_needs_destination (_token _base_url : string)
  (py_repr : pyval -> string)
  (requests_get : list request -> request -> string + response)
  (open_wb : list fs_event -> string -> bool)
  (torrent_id : pyval) (dry : pyval) (w : world) :
  truthy dry = false ->
  let out :=
    download_torrent _token _base_url py_repr requests_get open_wb
      torrent_id None dry w in
  (exists e, fst out = inl e)
  /\ fs (snd out) = fs w
  /\ (is_None dry || is_False dry = true ->
      out = (inl (PyException "write_location must be set if dry is False"), w)).
Proof.
  intros Hdry out. subst out. rewrite download_torrent_eq. rewrite andb_true_r.
  destruct (is_None dry || is_False dry); [cbn; eauto|].
  pose proof (DownloadFacts.ensure_user_effects _token _base_url py_repr
                requests_get w) as (Hfs & _).
  destruct (ensure_user _token _base_url py_repr requests_get w)
    as [[e|[]] w1]; cbn [snd] in Hfs.
  { cbn. repeat split; eauto. discriminate. }
  destruct (getitem (_user w1) "authkey") as [e|authkey];
    [cbn; repeat split; eauto; discriminate|].
  destruct (getitem (_user w1) "passkey") as [e|passkey];
    [cbn; repeat split; eauto; discriminate|].
  pose proof (ClientFacts.do_request_sends_one _token _base_url py_repr
                requests_get (Some "download")
                (Some [("id", torrent_id); ("authkey", authkey);
                       ("torrent_pass", passkey)])
                (Some download_url) dry w1 Hdry) as Hsnd.
  destruct (_do_request _token _base_url py_repr requests_get
              (Some "download")
              (Some [("id", torrent_id); ("authkey", authkey);
                     ("torrent_pass", passkey)])
              (Some download_url) dry w1) as [[e|resp] w2];
    cbn [snd] in Hsnd; subst w2.
  - cbn. repeat split; eauto. discriminate.
  - rewrite Hdry. cbn. repeat split; eauto. discriminate.
Qed.

Lemma real_download_needs_destination_witness :
  download_torrent "token" Scenarios.base_url Scenarios.repr_stub
    Examples.network_torrent Scenarios.fs_writable
    (VInt 5) None (VBool false) Scenarios.world_with_user
  = (inl (PyException "write_location must be set if dry is False"),
     Scenarios.world_with_user).
Proof.
  apply (real_download_needs_destination "token" Scenarios.base_url
           Scenarios.repr_stub Examples.network_torrent Scenarios.fs_writable
           (VInt 5) (VBool false) Scenarios.world_with_user eq_refl).
  reflexivity.
Defined.

End DownloadMore.

(** ** More on selection *)

Module SelectionMore.

Import Client Downloader.

Local Open Scope string_scope.

Lemma get_offer_cases tid data td g c :
  PyDict.get g (offer tid data td) = Some c ->
  PyDict.get g td = Some c \/ (g = GroupID data /\ c = candidate_of tid data).
Proof.
  destruct (Z.eq_dec g (GroupID data)) as [-> | Hne].
  - unfold offer.
    destruct (PyDict.get (GroupID data) td) as [c0|] eqn:E.
    + destruct (seeders c0 >? Seeders data)%Z.
      * rewrite E. auto.
      * rewrite PyDictFacts.get_set_eq. intros H. injection H as <-. auto.
    + rewrite PyDictFacts.get_set_eq. intros H. injection H as <-. auto.
  - rewrite SelectionFacts.get_offer_other by assumption. auto.
Qed.

(** Where a candidate of the map after a scan comes from. *)
Lemma scan_entries_provenance entries :
  forall td g c,
    PyDict.get g (scan_entries entries td) = Some c ->
    PyDict.get g td = Some c
    \/ exists tid data,
        In (tid, data) entries /\ eligible data = true
        /\ GroupID data = g /\ c = candidate_of tid data.
Proof.
  induction entries as [|[t d] rest IH]; intros td g c Hget.
  - left. exact Hget.
  - destruct (SelectionFacts.entry_cases d) as [Hf | [Hb | He]].
    + rewrite SelectionFacts.scan_entries_skip in Hget by assumption.
      destruct (IH _ _ _ Hget) as [H | (tid & data & Hin & H)]; [auto|].
      right. exists tid, data. split; [now right | assumption].
    + rewrite SelectionFacts.scan_entries_break in Hget by assumption.
      left. destruct (Z.eq_dec g (GroupID d)) as [-> | Hne].
      * rewrite PyDictFacts.get_pop_eq in Hget. discriminate.
      * now rewrite PyDictFacts.get_pop_ne in Hget.
    + rewrite SelectionFacts.scan_entries_offer in Hget by assumption.
      destruct (IH _ _ _ Hget) as [H | (tid & data & Hin & H)].
      * destruct (get_offer_cases _ _ _ _ _ H) as [H' | [-> ->]]; [auto|].
        right. exists t, d. repeat split; auto. now left.
      * right. exists tid, data. split; [now right | assumption].
Qed.

Lemma keys_set {V : Type} (k : Z) (v : V) (d : PyDict.t V) :
  map fst (PyDict.set k v d)
  = if existsb (Z.eqb k) (map fst d) then map fst d
    else (map fst d ++ [k])%list.
Proof.
  induction d as [|[k' v'] r IH]; cbn; [reflexivity|].
  destruct (k =? k')%Z eqn:E; cbn.
  - apply Z.eqb_eq in E. now subst.
  - rewrite IH. now destruct (existsb (Z.eqb k) (map fst r)).
Qed.

Lemma NoDup_set {V : Type} (k : Z) (v : V) (d : PyDict.t V) :
  NoDup (map fst d) -> NoDup (map fst (PyDict.set k v d)).
Proof.
  intros H. rewrite keys_set.
  destruct (existsb (Z.eqb k) (map fst d)) eqn:E; [assumption|].
  apply NoDup_app; [assumption | repeat constructor; cbn; tauto |].
  intros x Hx [Hk | []]. subst x.
  assert (existsb (Z.eqb k) (map fst d) = true); [|congruence].
  apply existsb_exists. exists k. split; [assumption | apply Z.eqb_refl].
Qed.

Lemma NoDup_pop {V : Type} (k : Z) (d : PyDict.t V) :
  NoDup (map fst d) -> NoDup (map fst (PyDict.pop k d)).
Proof.
  unfold PyDict.pop. induction d as [|[k' v'] r IH]; cbn; [auto|].
  intros H. inversion H as [|? ? Hnotin Hnd]; subst.
  destruct (k =? k')%Z; cbn; [auto|].
  constructor; [|auto].
  intros Hin. apply Hnotin.
  apply in_map_iff in Hin as ([k0 v0] & Hk & Hin). cbn in Hk. subst k0.
  apply filter_In in Hin as [Hin _].
  apply in_map_iff. now exists (k', v0).
Qed.

Lemma NoDup_offer tid data td :
  NoDup (map fst td) -> NoDup (map fst (offer tid data td)).
Proof.
  intros H. unfold offer.
  destruct (PyDict.get (GroupID data) td) as [c|].
  - destruct (seeders c >? Seeders data)%Z; [assumption | now apply NoDup_set].
  - now apply NoDup_set.
Qed.

Lemma NoDup_scan_entries entries :
  forall td, NoDup (map fst td) -> NoDup (map fst (scan_entries entries td)).
Proof.
  induction entries as [|[t d] rest IH]; intros td H; [assumption|].
  destruct (SelectionFacts.entry_cases d) as [Hf | [Hb | He]].
  - rewrite SelectionFacts.scan_entries_skip by assumption. now apply IH.
  - rewrite SelectionFacts.scan_entries_break by assumption.
    now apply NoDup_pop.
  - rewrite SelectionFacts.scan_entries_offer by assumption.
    now apply IH, NoDup_offer.
Qed.

Lemma NoDup_process_group grp td :
  NoDup (map fst td) -> NoDup (map fst (process_group grp td)).
Proof.
  intros H. unfold process_group.
  destruct (Torrents grp) as [entries|]; [|assumption].
  destruct (Z.of_nat (List.length entries) =? 0)%Z; [assumption|].
  now apply NoDup_scan_entries.
Qed.

Lemma NoDup_process_page result :
  forall td, NoDup (map fst td) -> NoDup (map fst (process_page result td)).
Proof.
  unfold process_page.
  induction result as [|[key grp] rest IH]; intros td H; cbn; [assumption|].
  now apply IH, NoDup_process_group.
Qed.

Lemma process_group_scan grp entries td :
  Torrents grp = Some entries ->
  process_group grp td = scan_entries entries td.
Proof.
  intros H. unfold process_group. rewrite H.
  destruct entries; reflexivity.
Qed.

(** X18: for a group none of whose entries is both past the type filters
    and snatched, every eligible entry of the group ends up with a candidate
    for its group identifier that has at least as many seeders: the maximum
    seeder count among the eligible entries survives. *)
Theorem group_keeps_max_seeders grp entries td tid data :
  Torrents grp = Some entries ->
  no_break entries = true ->
  In (tid, data) entries ->
  eligible data = true ->
  exists c,
    PyDict.get (GroupID data) (process_group grp td) = Some c
    /\ (Seeders data <= seeders c)%Z.
Proof.
  intros Hg Hnb Hin Hel. rewrite (process_group_scan grp entries td Hg).
  apply (SelectionFacts.scan_entries_max entries td tid data); assumption.
Qed.

Lemma group_keeps_max_seeders_witness :
  exists c,
    PyDict.get 20
      (process_group
         {| Torrents := Some [("F", Examples.torrent_F); ("A", Scenarios.torrent_A)] |}
         PyDict.empty) = Some c
    /\ (2 <= seeders c)%Z.
Proof.
  apply (group_keeps_max_seeders
           {| Torrents := Some [("F", Examples.torrent_F); ("A", Scenarios.torrent_A)] |}
           [("F", Examples.torrent_F); ("A", Scenarios.torrent_A)]
           PyDict.empty "F" Examples.torrent_F).
  - reflexivity.
  - reflexivity.
  - left. reflexivity.
  - reflexivity.
Defined.

(** X19: processing a page never records an entry that fails a type filter
    or is snatched: every candidate of the map afterwards was there before
    or is built from an eligible entry of a group of the page, under that
    entry's own group identifier, with its torrent id, title and seeders. *)
Theorem page_candidates_are_eligible_entries (result : page) :
  forall td g c,
    PyDict.get g (process_page result td) = Some c ->
    PyDict.get g td = Some c
    \/ exists key grp entries tid data,
        In (key, grp) result /\ Torrents grp = Some entries
        /\ In (tid, data) entries /\ eligible data = true
        /\ GroupID data = g /\ c = candidate_of tid data.
Proof.
  unfold process_page.
  induction result as [|[key grp] rest IH]; intros td g c Hget; cbn in Hget.
  - now left.
  - destruct (IH _ _ _ Hget) as [H | (k & gr & es & tid & d & Hin & H)].
    + unfold process_group in H.
      destruct (Torrents grp) as [entries|] eqn:Ht; [|now left].
      destruct (Z.of_nat (List.length entries) =? 0)%Z; [now left|].
      destruct (scan_entries_provenance _ _ _ _ H)
        as [H' | (tid & d & Hin & Hrest)]; [now left|].
      right. exists key, grp, entries, tid, d.
      split; [now left|]. split; [assumption|]. split; assumption.
    + right. exists k, gr, es, tid, d. split; [now right | assumption].
Qed.

(** X20: a scan changes the map only under the group identifiers of the
    entries that pass the type filters: the candidate of every other group
    is as before. *)
Theorem scan_leaves_other_groups entries :
  forall td g,
    (forall tid data, In (tid, data) entries ->
                      passes_filters data = true -> GroupID data <> g) ->
    PyDict.get g (scan_entries entries td) = PyDict.get g td.
Proof.
  induction entries as [|[t d] rest IH]; intros td g Hother; [reflexivity|].
  assert (Hrest : forall tid data, In (tid, data) rest ->
                    passes_filters data = true -> GroupID data <> g)
    by (intros tid data Hin; apply (Hother tid data); now right).
  destruct (SelectionFacts.entry_cases d) as [Hf | [Hb | He]].
  - rewrite SelectionFacts.scan_entries_skip by assumption. now apply IH.
  - rewrite SelectionFacts.scan_entries_break by assumption.
    apply PyDictFacts.get_pop_ne. intros ->.
    apply (Hother t d); [now left | now apply SelectionFacts.breaks_passes | reflexivity].
  - rewrite SelectionFacts.scan_entries_offer by assumption.
    rewrite IH by assumption.
    apply SelectionFacts.get_offer_other. intros ->.
    apply (Hother t d); [now left | now apply SelectionFacts.eligible_passes | reflexivity].
Qed.

Lemma scan_leaves_other_groups_witness :
  PyDict.get 30
    (scan_entries [("A", Scenarios.torrent_A); ("B", Scenarios.torrent_B)]
       Scenarios.plan_two)
  = PyDict.get 30 Scenarios.plan_two.
Proof.
  apply (scan_leaves_other_groups
           [("A", Scenarios.torrent_A); ("B", Scenarios.torrent_B)]
           Scenarios.plan_two 30%Z).
  intros tid data [H | [H | []]] _; injection H as <- <-; discriminate.
Defined.

(** X21: that an entry of a group was snatched is not remembered.  After a
    scan that stopped at a snatched entry, an eligible entry with the same
    group identifier met in a later entry list (another group of the page,
    or a later page) becomes the candidate of that group. *)
Theorem snatched_is_not_remembered pre tid s post tid' data td :
  no_break pre = true ->
  breaks s = true ->
  eligible data = true ->
  GroupID data = GroupID s ->
  PyDict.get (GroupID s)
    (scan_entries [(tid', data)] (scan_entries (pre ++ (tid, s) :: post) td))
  = Some (candidate_of tid' data).
Proof.
  intros Hpre Hs Hel Hg.
  rewrite SelectionFacts.scan_entries_break_at by assumption.
  rewrite SelectionFacts.scan_entries_offer by assumption. cbn [scan_entries].
  unfold offer. rewrite Hg, PyDictFacts.get_pop_eq.
  apply PyDictFacts.get_set_eq.
Qed.

Lemma snatched_is_not_remembered_witness :
  PyDict.get 20
    (scan_entries [("F", Examples.torrent_F)]
       (scan_entries ([("A", Scenarios.torrent_A)] ++ ("B", Scenarios.torrent_B) :: [])
          PyDict.empty))
  = Some (candidate_of "F" Examples.torrent_F).
Proof.
  apply (snatched_is_not_remembered
           [("A", Scenarios.torrent_A)] "B" Scenarios.torrent_B [] "F"
           Examples.torrent_F PyDict.empty);
    reflexivity.
Defined.

(** X22: an entry with strictly fewer seeders never replaces the candidate
    of its group: when every eligible entry of a list for group [g] has
    fewer seeders than the current candidate, and the list has no snatched
    entry past the type filters, the candidate of [g] after the scan is the
    same record as before. *)
Theorem lower_seeders_never_replace entries :
  forall td g c,
    no_break entries = true ->
    PyDict.get g td = Some c ->
    (forall tid data, In (tid, data) entries -> eligible data = true ->
                      GroupID data = g -> (Seeders data < seeders c)%Z) ->
    PyDict.get g (scan_entries entries td) = Some c.
Proof.
  induction entries as [|[t d] rest IH]; intros td g c Hnb Hget Hlow;
    [assumption|].
  cbn in Hnb. apply andb_true_iff in Hnb as [Hd Hnb].
  apply negb_true_iff in Hd.
  assert (Hrest : forall tid data, In (tid, data) rest -> eligible data = true ->
                    GroupID data = g -> (Seeders data < seeders c)%Z)
    by (intros tid data Hin; apply (Hlow tid data); now right).
  destruct (SelectionFacts.entry_cases d) as [Hf | [Hb | He]].
  - rewrite SelectionFacts.scan_entries_skip by assumption. now apply IH.
  - congruence.
  - rewrite SelectionFacts.scan_entries_offer by assumption.
    apply IH; try assumption.
    destruct (Z.eq_dec g (GroupID d)) as [-> | Hne].
    + unfold offer. rewrite Hget.
      specialize (Hlow t d (or_introl eq_refl) He eq_refl).
      replace (seeders c >? Seeders d)%Z with true
        by (symmetry; apply Z.gtb_lt; lia).
      assumption.
    + now rewrite SelectionFacts.get_offer_other.
Qed.

Lemma lower_seeders_never_replace_witness :
  PyDict.get 20 (scan_entries [("F", Examples.torrent_F)] Scenarios.plan_two)
  = Some (candidate_of "A" Scenarios.torrent_A).
Proof.
  apply (lower_seeders_never_replace [("F", Examples.torrent_F)]
           Scenarios.plan_two 20%Z (candidate_of "A" Scenarios.torrent_A)).
  - reflexivity.
  - reflexivity.
  - intros tid data [H | []] _ _. injection H as <- <-. cbn. lia.
Defined.

End SelectionMore.

(** ** More on pagination *)

Module PaginationMore.

Import Client Downloader.

Local Open Scope string_scope.

Section OneConsole.

Variable search_torrents : string -> Z -> exc + page.
Variable console : string.

(** The scan of a console whose request for page [start + n] fails, after
    [n] pages that hold groups. *)
Lemma scan_console_fails n :
  forall start torrent_data log fuel e,
    (forall i : nat, (i < n)%nat ->
       exists result,
         search_torrents console (start + Z.of_nat i)%Z = inr result
         /\ result <> []) ->
    search_torrents console (start + Z.of_nat n)%Z = inl e ->
    (n < fuel)%nat ->
    scan_console search_torrents fuel console start torrent_data log
    = Some (inl e, (log ++ page_requests console start (S n))%list).
Proof.
  induction n as [|n IH]; intros start td log fuel e Hfull Hfail Hfuel;
    (destruct fuel as [|fuel]; [lia|]).
  - rewrite Z.add_0_r in Hfail. cbn [scan_console]. now rewrite Hfail.
  - destruct (Hfull 0%nat) as (r & Hr & Hne); [lia|].
    rewrite Z.add_0_r in Hr. cbn [scan_console]. rewrite Hr.
    destruct r as [|g r]; [contradiction|].
    replace (Z.of_nat (List.length (g :: r)) =? 0)%Z with false
      by (symmetry; apply Z.eqb_neq; cbn [List.length]; lia).
    rewrite (IH (start + 1)%Z _ _ fuel e).
    + cbn [page_requests]. now rewrite <- app_assoc.
    + intros i Hi. destruct (Hfull (S i)) as (r' & Hr' & Hne'); [lia|].
      exists r'. split; [|assumption].
      now replace (start + 1 + Z.of_nat i)%Z with (start + Z.of_nat (S i))%Z by lia.
    + now replace (start + 1 + Z.of_nat n)%Z with (start + Z.of_nat (S n))%Z by lia.
    + lia.
Qed.

(** The scan of a console all of whose pages from [start] on hold groups. *)
Lemma scan_console_endless fuel :
  forall start torrent_data log,
    (forall p, (start <= p)%Z ->
       exists result, search_torrents console p = inr result /\ result <> []) ->
    scan_console search_torrents fuel console start torrent_data log = None.
Proof.
  induction fuel as [|fuel IH]; intros start td log Hfull; [reflexivity|].
  destruct (Hfull start) as (r & Hr & Hne); [lia|].
  cbn [scan_console]. rewrite Hr.
  destruct r as [|g r]; [contradiction|].
  replace (Z.of_nat (List.length (g :: r)) =? 0)%Z with false
    by (symmetry; apply Z.eqb_neq; cbn [List.length]; lia).
  apply IH. intros p Hp. apply Hfull. lia.
Qed.

Lemma NoDup_scan_console fuel :
  forall start td log td' log',
    NoDup (map fst td) ->
    scan_console search_torrents fuel console start td log
    = Some (inr td', log') ->
    NoDup (map fst td').
Proof.
  induction fuel as [|fuel IH]; intros start td log td' log' Hnd Hscan;
    [discriminate|].
  cbn [scan_console] in Hscan.
  destruct (search_torrents console start) as [e|r]; [discriminate|].
  destruct (Z.of_nat (List.length r) =? 0)%Z.
  - injection Hscan as <- _. assumption.
  - eapply IH; [|exact Hscan]. now apply SelectionMore.NoDup_process_page.
Qed.

End OneConsole.

Lemma NoDup_scan_consoles search_torrents fuel consoles :
  forall td log td' log',
    NoDup (map fst td) ->
    scan_consoles search_torrents fuel consoles td log = Some (inr td', log') ->
    NoDup (map fst td').
Proof.
  induction consoles as [|c rest IH]; intros td log td' log' Hnd Hscan.
  - cbn in Hscan. injection Hscan as <- _. assumption.
  - cbn [scan_consoles] in Hscan.
    destruct (scan_console search_torrents fuel c 1 td log)
      as [[[e|td1] log1]|] eqn:E; try discriminate.
    eapply IH; [|exact Hscan].
    eapply NoDup_scan_console; eassumption.
Qed.

(** X23: the plan a completed scan produces holds each group identifier at
    most once, so the download loop attempts at most one torrent per
    group. *)
Theorem plan_has_one_candidate_per_group
  (search_torrents : string -> Z -> exc + page) (fuel : nat)
  (consoles : list string) (plan : PyDict.t candidate)
  (log : list (string * Z)) :
  scan_consoles search_torrents fuel consoles PyDict.empty [] = Some (inr plan, log) ->
  NoDup (map fst (PyDict.items plan)).
Proof.
  intros H. eapply NoDup_scan_consoles; [|exact H]. constructor.
Qed.

Lemma plan_has_one_candidate_per_group_witness :
  NoDup (map fst (PyDict.items Scenarios.plan_two)).
Proof.
  apply (plan_has_one_candidate_per_group Scenarios.search_two_pages 3
           ["Atari 2600"] Scenarios.plan_two
           [("Atari 2600", 1%Z); ("Atari 2600", 2%Z); ("Atari 2600", 3%Z)]).
  reflexivity.
Defined.

(** X24: an exception raised by a page request ends the whole run: the
    pages before it have been requested in order, no later console is
    scanned, no download is attempted and the client state is untouched. *)
Theorem search_failure_aborts_run
  (search_torrents : string -> Z -> exc + page)
  (_token _base_url : string) (py_repr : pyval -> string)
  (requests_get : list request -> request -> string + response)
  (open_wb : list fs_event -> string -> bool)
  (console : string) (rest : list string) (n fuel : nat) (e : exc)
  (dry : pyval) (write_location : string) (w : world) :
  (forall i : nat, (i < n)%nat ->
     exists result,
       search_torrents console (1 + Z.of_nat i)%Z = inr result
       /\ result <> []) ->
  search_torrents console (1 + Z.of_nat n)%Z = inl e ->
  (n < fuel)%nat ->
  main search_torrents _token _base_url py_repr requests_get open_wb
    fuel (console :: rest) dry write_location w
  = Some (inl e,
          map (fun i => (console, (1 + Z.of_nat i)%Z)) (seq 0 (S n)),
          w).
Proof.
  intros Hfull Hfail Hfuel. unfold main. cbn [scan_consoles].
  rewrite (scan_console_fails search_torrents console n 1%Z PyDict.empty []
             fuel e Hfull Hfail Hfuel).
  cbn [app]. now rewrite PaginationFacts.page_requests_seq.
Qed.

Lemma search_failure_aborts_run_witness :
  main Examples.search_fails_on_page_2 "token" Scenarios.base_url
    Scenarios.repr_stub Scenarios.network_user Scenarios.fs_writable
    5 ["Atari 2600"; "NES"] (VBool true) "./" initial_world
  = Some (inl (RequestException "timed out"),
          map (fun i => ("Atari 2600", (1 + Z.of_nat i)%Z)) (seq 0 2),
          initial_world).
Proof.
  apply (search_failure_aborts_run Examples.search_fails_on_page_2 "token"
           Scenarios.base_url Scenarios.repr_stub Scenarios.network_user
           Scenarios.fs_writable "Atari 2600" ["NES"] 1 5
           (RequestException "timed out") (VBool true) "./" initial_world).
  - intros [|i] Hi; [|lia]. eexists. split; [reflexivity | discriminate].
  - reflexivity.
  - lia.
Defined.

(** X25: the page loop has no bound of its own: when every page of a
    console holds at least one group, the scan of that console never
    returns, whatever number of iterations it is given, and so neither does
    the run. *)
Theorem scan_without_empty_page_never_ends
  (search_torrents : string -> Z -> exc + page)
  (_token _base_url : string) (py_repr : pyval -> string)
  (requests_get : list request -> request -> string + response)
  (open_wb : list fs_event -> string -> bool)
  (console : string) (rest : list string)
  (dry : pyval) (write_location : string) (w : world) :
  (forall p, (1 <= p)%Z ->
     exists result, search_torrents console p = inr result /\ result <> []) ->
  forall fuel,
    main search_torrents _token _base_url py_repr requests_get open_wb
      fuel (console :: rest) dry write_location w = None.
Proof.
  intros Hfull fuel. unfold main. cbn [scan_consoles].
  now rewrite (scan_console_endless search_torrents console fuel 1%Z
                 PyDict.empty [] Hfull).
Qed.

Lemma scan_without_empty_page_never_ends_witness :
  main Examples.search_endless "token" Scenarios.base_url
    Scenarios.repr_stub Scenarios.network_user Scenarios.fs_writable
    1000 ["Atari 2600"] (VBool true) "./" initial_world = None.
Proof.
  apply (scan_without_empty_page_never_ends Examples.search_endless "token"
           Scenarios.base_url Scenarios.repr_stub Scenarios.network_user
           Scenarios.fs_writable "Atari 2600" [] (VBool true) "./"
           initial_world).
  intros p _. eexists. split; [reflexivity | discriminate].
Defined.

End PaginationMore.

(** ** The API methods *)

Module ApiFacts.

Import Client Api.

Local Open Scope string_scope.

Section Environment.

Variable _token : string.
Variable _base_url : string.
Variable py_repr : pyval -> string.
Variable requests_get : list request -> request -> string + response.
Variable str_upper : string -> string.

Local Abbreviation request_of := (request_for _token _base_url py_repr).

(** A method call sends the request of its action and parameters. *)
Lemma run_call_sends action args w :
  snd (run (call _token _base_url py_repr requests_get action args) w)
  = after_request (request_of (Some action) (Some args) None) w.
Proof.
  unfold run, call.
  pose proof (ClientFacts.do_request_sends_one _token _base_url py_repr
                requests_get (Some action) (Some args) None (VBool false) w
                eq_refl) as H.
  destruct (_do_request _token _base_url py_repr requests_get
              (Some action) (Some args) None (VBool false) w) as [[e|x] w1];
    exact H.
Qed.

Lemma truthy_not_None (v : pyval) : truthy v = true -> is_None v = false.
Proof. destruct v; cbn; congruence. Qed.

End Environment.

(** X26: [user_profile] wants exactly one of the user id and the name.
    With both or neither given (a value that is falsy, such as the id 0 or
    the empty name, counts as not given) it raises at once and sends
    nothing; otherwise it sends one request, whose URL carries the given one
    alone. *)
Theorem user_profile_wants_exactly_one (_token _base_url : string)
  (py_repr : pyval -> string)
  (requests_get : list request -> request -> string + response)
  (user_id name : pyval) (w : world) :
  let out :=
    user_profile _token _base_url py_repr requests_get user_id name w in
  if Bool.eqb (truthy user_id) (truthy name) then
    exists msg, out = (inl (ArgumentError msg), w)
  else
    snd out
    = after_request
        (request_for _token _base_url py_repr (Some "user")
           (Some [ if truthy user_id then ("id", user_id)
                   else ("username", name) ])
           None) w.
Proof.
  cbv zeta. unfold user_profile.
  destruct (truthy user_id) eqn:Hu, (truthy name) eqn:Hn; cbn [Bool.eqb negb andb].
  - eexists. reflexivity.
  - rewrite run_call_sends. unfold or_None. rewrite Hu, Hn.
    unfold request_for, _action_url. cbn.
    now rewrite (truthy_not_None user_id Hu).
  - rewrite run_call_sends. unfold or_None. rewrite Hu, Hn.
    unfold request_for, _action_url. cbn.
    now rewrite (truthy_not_None name Hn).
  - eexists. reflexivity.
Qed.

(** X27: [inbox] sends a request only for arguments it accepts: when the
    state shows a request was sent, the message type is [None], [inbox] or
    [sentbox], the sort is [None] or [unread], and the search type is
    [None], [subject], [message] or [user]. *)
Theorem inbox_sends_only_valid_arguments (_token _base_url : string)
  (py_repr : pyval -> string)
  (requests_get : list request -> request -> string + response)
  (sort search search_type message_type page_number : pyval) (w : world) :
  sent (snd (inbox _token _base_url py_repr requests_get
               sort search search_type message_type page_number w))
  <> sent w ->
  (message_type = VNone \/ message_type = VStr "inbox"
   \/ message_type = VStr "sentbox")
  /\ (sort = VNone \/ sort = VStr "unread")
  /\ (search_type = VNone \/ search_type = VStr "subject"
      \/ search_type = VStr "message" \/ search_type = VStr "user").
Proof.
  unfold inbox. intros Hsent.
  destruct (not_in_strs_or_None message_type ["inbox"; "sentbox"]) eqn:Hm;
    [now contradiction Hsent|].
  destruct (not_in_strs_or_None sort ["unread"]) eqn:Hs;
    [now contradiction Hsent|].
  destruct (not_in_strs_or_None search_type ["subject"; "message"; "user"])
    eqn:Ht; [now contradiction Hsent|].
  clear Hsent. repeat split.
  - destruct message_type; try discriminate; auto.
    cbn in Hm. apply negb_false_iff in Hm.
    destruct (String.eqb_spec s "inbox"); [subst; auto|].
    destruct (String.eqb_spec s "sentbox"); [subst; auto|]. discriminate.
  - destruct sort; try discriminate; auto.
    cbn in Hs. apply negb_false_iff in Hs.
    destruct (String.eqb_spec s "unread"); [subst; auto|]. discriminate.
  - destruct search_type; try discriminate; auto.
    cbn in Ht. apply negb_false_iff in Ht.
    destruct (String.eqb_spec s "subject"); [subst; auto|].
    destruct (String.eqb_spec s "message"); [subst; auto|].
    destruct (String.eqb_spec s "user"); [subst; auto 6|]. discriminate.
Qed.

Lemma inbox_sends_only_valid_arguments_witness :
  (VStr "inbox" = VNone \/ VStr "inbox" = VStr "inbox"
   \/ VStr "inbox" = VStr "sentbox")
  /\ (VNone = VNone \/ VNone = VStr "unread")
  /\ (VNone = VNone \/ VNone = VStr "subject"
      \/ VNone = VStr "message" \/ VNone = VStr "user").
Proof.
  apply (inbox_sends_only_valid_arguments "token" Scenarios.base_url
           Scenarios.repr_stub Scenarios.network_user
           VNone VNone VNone (VStr "inbox") (VInt 1) initial_world).
  cbn. discriminate.
Defined.

(** X28: the page request of the console tool.  For a console and a page
    number, [search_torrents] sends one request, whose URL names the action
    [search] and, in this order, the search type, the console as the artist
    name, the filled-groups filter, the order and the page; the console name
    is put in as it is, and no other parameter appears. *)
Theorem downloader_search_request (_token _base_url : string)
  (py_repr : pyval -> string)
  (requests_get : list request -> request -> string + response)
  (console : string) (page_number : Z) (w : world) :
  snd (search_torrents _token _base_url py_repr requests_get
         (downloader_search console page_number) w)
  = after_request
      {| req_url :=
           __base_url _base_url
           ++ "&request=search&&search_type=torrents&artistname=" ++ console
           ++ "&emptygroups=filled&order_by=groupname&order_way=asc&page="
           ++ str_of_int page_number;
         req_headers :=
           [ ("Accept", "application/json");
             ("Content-Type", "application/json");
             ("X-API-Key", _token) ];
         req_timeout := 10 |} w.
Proof.
  unfold search_torrents, call.
  rewrite ClientFacts.do_request_sends_one by reflexivity.
  reflexivity.
Qed.

(** X29: a flag of [search_torrents] is sent as 1 only for the value
    [True] itself; every other value that is not [None], the integer 1
    included, is sent as 0, and [None] leaves the parameter out. *)
Theorem search_flag_is_one_only_for_True (_token _base_url : string)
  (py_repr : pyval -> string) (v : pyval) :
  req_url
    (request_for _token _base_url py_repr (Some "search")
       (Some (search_torrents_args (search_checked v))) None)
  = __base_url _base_url
    ++ "&request=search&&search_type=torrents"
    ++ (if is_None v then ""
        else if is_True v then "&checked=1" else "&checked=0")
    ++ "&page=1".
Proof.
  unfold request_for, _action_url. cbn.
  destruct v as [|[]| | | |]; reflexivity.
Qed.

(** X30: [get_torrent] sends the hash in upper case, leaves it out when it
    is [None] or empty, and, given a hash that is truthy without being a
    string, raises [AttributeError] before any request is sent. *)
Theorem get_torrent_hash_parameter (_token _base_url : string)
  (py_repr : pyval -> string)
  (requests_get : list request -> request -> string + response)
  (str_upper : string -> string)
  (torrent_id torrent_hash : pyval) (w : world) :
  let out :=
    get_torrent _token _base_url py_repr requests_get str_upper
      torrent_id torrent_hash w in
  if truthy torrent_hash then
    match torrent_hash with
    | VStr s =>
        snd out
        = after_request
            (request_for _token _base_url py_repr (Some "torrent")
               (Some [ ("id", torrent_id); ("hash", VStr (str_upper s)) ])
               None) w
    | _ => out = (inl AttributeError, w)
    end
  else
    snd out
    = after_request
        (request_for _token _base_url py_repr (Some "torrent")
           (Some [ ("id", torrent_id) ]) None) w.
Proof.
  cbv zeta. unfold get_torrent, hash_arg, bind, lift, call.
  destruct (truthy torrent_hash) eqn:Ht.
  - destruct torrent_hash; try reflexivity.
    now rewrite ClientFacts.do_request_sends_one.
  - rewrite ClientFacts.do_request_sends_one by reflexivity.
    unfold request_for, _action_url. cbn.
    destruct (is_None torrent_id); reflexivity.
Qed.

End ApiFacts.

(** ** Further instances *)

Module Instances.

Import Client Api Downloader.

Local Open Scope string_scope.

Lemma remove_header_restores_witness :
  str_lookup "Accept"
    (to_dict (remove_header "Accept" {| token := "secret"; extra_headers := [] |}))
  = str_lookup "Accept" (default_headers "secret")
  /\ (str_lookup "Accept" [] = (None : option string) ->
      remove_header "Accept"
        (add_header "Accept" "text/html"
           {| token := "secret"; extra_headers := [] |})
      = {| token := "secret"; extra_headers := [] |}).
Proof.
  apply (HeadersFacts.remove_header_restores
           {| token := "secret"; extra_headers := [] |} "Accept" "text/html").
  constructor.
Defined.

Lemma page_candidates_are_eligible_entries_witness :
  PyDict.get 20 PyDict.empty = Some (candidate_of "A" Scenarios.torrent_A)
  \/ exists key grp entries tid data,
      In (key, grp)
        [("20", {| Torrents := Some [("G", Examples.torrent_G);
                                     ("A", Scenarios.torrent_A)] |})]
      /\ Torrents grp = Some entries
      /\ In (tid, data) entries /\ eligible data = true
      /\ GroupID data = 20%Z
      /\ candidate_of "A" Scenarios.torrent_A = candidate_of tid data.
Proof.
  apply (SelectionMore.page_candidates_are_eligible_entries
           [("20", {| Torrents := Some [("G", Examples.torrent_G);
                                        ("A", Scenarios.torrent_A)] |})]
           PyDict.empty 20%Z (candidate_of "A" Scenarios.torrent_A)).
  reflexivity.
Defined.

End Instances.
